(** * Order settlement of the game-shop backend (src/server.js)

    A shallow embedding of the settlement handlers of [src/server.js]:
    [POST /api/orders/buy], [POST /api/users/cart/checkout],
    [POST /api/orders] and [GET /api/discounts/check/:code], over an
    explicit model of the Firestore collections they touch; and, further
    down, of the in-memory cache, the cart endpoints, the top-up, the promo
    validation and the discount administration.

    Numbers.  JavaScript numbers that carry money ([wallet], [price],
    [value], [minSpend], totals) are rationals [Q]: the percent discount
    [(total * value) / 100] is a true division, and the statements about
    amounts are stated up to [==].  Counters ([quantity], [totalSold],
    [usedCount], [usageLimit]) and instants (milliseconds) are integers [Z].
    Every document carries the fields that the creating endpoints write, so
    [x || d] only has to decide whether the number [x] is zero. *)

From Stdlib Require Import Ascii QArith Qminmax Lqa.
From stdpp Require Import gmap strings list fin_maps.

Open Scope Z_scope.

(** ** JavaScript helpers *)

(** [x || d] on a counter: [0] is falsy. *)
Definition js_or (x d : Z) : Z := if Z.eqb x 0 then d else x.

(** [x || d] on an amount. *)
Definition js_orQ (x d : Q) : Q := if Qeq_bool x 0 then d else x.

(** [a < b] on amounts. *)
Definition Qltb (a b : Q) : bool := negb (Qle_bool b a).

(** A string is truthy when it is not empty. *)
Definition truthy (s : string) : bool := negb (String.eqb s "").

(** [String.prototype.toUpperCase], on the ASCII letters. *)
Definition upper_ascii (c : ascii) : ascii :=
  let n := nat_of_ascii c in
  if (Nat.leb 97 n && Nat.leb n 122)%bool then ascii_of_nat (n - 32) else c.

Fixpoint toUpperCase (s : string) : string :=
  match s with
  | EmptyString => EmptyString
  | String c r => String (upper_ascii c) (toUpperCase r)
  end.

(** [String.prototype.trim], on the ASCII white space (tab, line feed,
    vertical tab, form feed, carriage return, space). *)
Definition is_space (c : ascii) : bool :=
  let n := nat_of_ascii c in
  ((Nat.leb 9 n && Nat.leb n 13) || Nat.eqb n 32)%bool.

Fixpoint trim_start (s : string) : string :=
  match s with
  | EmptyString => EmptyString
  | String c r => if is_space c then trim_start r else s
  end.

Fixpoint trim_end (s : string) : string :=
  match s with
  | EmptyString => EmptyString
  | String c r =>
      match trim_end r with
      | EmptyString => if is_space c then EmptyString else String c EmptyString
      | r' => String c r'
      end
  end.

Definition trim (s : string) : string := trim_end (trim_start s).

(** [Array.prototype.includes] on an array of strings. *)
Definition includes (l : list string) (x : string) : bool :=
  bool_decide (x ∈ l).

(** [FieldValue.arrayUnion(x)]: append [x] unless it is already there. *)
Definition arrayUnion (l : list string) (x : string) : list string :=
  if includes l x then l else l ++ [x].

(** [FieldValue.arrayRemove(x)]: drop every occurrence of [x]. *)
Definition arrayRemove (l : list string) (x : string) : list string :=
  filter (λ y, y ≠ x) l.

(** ** Documents *)

Module User.
(** A document of [users]; only [wallet] matters to settlement. *)
Record t := { wallet : Q }.
End User.

Module Game.
(** A document of [games] (created by [POST /api/games]). *)
Record t := {
  name : string;
  price : Q;
  totalSold : Z;
  isActive : bool;
}.

Definition set_totalSold (n : Z) (g : t) : t :=
  {| name := name g; price := price g; totalSold := n;
     isActive := isActive g |}.
End Game.

Module Discount.
(** A document of [discounts] (created by [POST /api/discounts]).
    [expireAt] is the Firestore timestamp in milliseconds; [None] stands
    for a document without a usable [expireAt]. *)
Record t := {
  code : string;
  type : string;
  value : Q;
  minSpend : Q;
  maxDiscount : option Q;
  expireAt : option Z;
  isActive : bool;
  usedBy : list string;
  usedCount : Z;
  usageLimit : Z;
}.

(** The fields written by [ref.update({usedBy, usedCount, isActive})]. *)
Definition set_usage (by_ : list string) (count : Z) (active : bool)
    (d : t) : t :=
  {| code := code d; type := type d; value := value d;
     minSpend := minSpend d; maxDiscount := maxDiscount d;
     expireAt := expireAt d; isActive := active; usedBy := by_;
     usedCount := count; usageLimit := usageLimit d |}.
End Discount.

Module Order.
(** A document of [orders]; [redeemCode] is [None] for [null].  The
    generated identity and [createdAt] are left out. *)
Record t := {
  userId : string;
  gameId : string;
  gameName : string;
  quantity : Z;
  price : Q;
  status : string;
  redeemCode : option string;
}.
End Order.

(** ** The store *)

(** The collections read and written by settlement.  [library] holds the
    pairs (user, game) for which [users/{user}/library/{game}] exists;
    [cart] maps a user to the documents of [users/{user}/cart], each a
    game identity with its [quantity]. *)
Record store := {
  users : gmap string User.t;
  games : gmap string Game.t;
  discounts : gmap string Discount.t;
  orders : list Order.t;
  library : gset (string * string);
  cart : gmap string (gmap string Z);
}.

Definition set_users (m : gmap string User.t) (s : store) : store :=
  {| users := m; games := games s; discounts := discounts s;
     orders := orders s; library := library s; cart := cart s |}.

Definition set_games (m : gmap string Game.t) (s : store) : store :=
  {| users := users s; games := m; discounts := discounts s;
     orders := orders s; library := library s; cart := cart s |}.

Definition set_discounts (m : gmap string Discount.t) (s : store) : store :=
  {| users := users s; games := games s; discounts := m;
     orders := orders s; library := library s; cart := cart s |}.

Definition set_orders (l : list Order.t) (s : store) : store :=
  {| users := users s; games := games s; discounts := discounts s;
     orders := l; library := library s; cart := cart s |}.

Definition set_library (l : gset (string * string)) (s : store) : store :=
  {| users := users s; games := games s; discounts := discounts s;
     orders := orders s; library := l; cart := cart s |}.

Definition set_cart (c : gmap string (gmap string Z)) (s : store) : store :=
  {| users := users s; games := games s; discounts := discounts s;
     orders := orders s; library := library s; cart := c |}.

(** [ref.update(fields)] and [transaction.update(ref, fields)]: the write
    fails when the document does not exist, otherwise the fields are set on
    the document as it is in the store at that moment. *)
Definition update_user (id : string) (f : User.t -> User.t) (s : store)
    : option store :=
  match users s !! id with
  | Some u => Some (set_users (<[id := f u]> (users s)) s)
  | None => None
  end.

Definition update_game (id : string) (f : Game.t -> Game.t) (s : store)
    : option store :=
  match games s !! id with
  | Some g => Some (set_games (<[id := f g]> (games s)) s)
  | None => None
  end.

Definition update_discount (id : string) (f : Discount.t -> Discount.t)
    (s : store) : option store :=
  match discounts s !! id with
  | Some d => Some (set_discounts (<[id := f d]> (discounts s)) s)
  | None => None
  end.

(** [db.collection("orders").add(o)] and [transaction.set(orderRef, o)] on
    a fresh reference. *)
Definition add_order (o : Order.t) (s : store) : store :=
  set_orders (orders s ++ [o]) s.

(** [transaction.set(libraryRef, {addedAt})]. *)
Definition grant (userId gameId : string) (s : store) : store :=
  set_library ({[ (userId, gameId) ]} ∪ library s) s.

(** [where("code", "==", code).limit(1).get()]: the first document whose
    [code] field matches, with its reference.  [POST /api/discounts]
    refuses a code that is already stored, so at most one document
    matches. *)
Definition find_discount (code : string) (s : store)
    : option (string * Discount.t) :=
  head (filter (λ kv, Discount.code kv.2 = code)
               (map_to_list (discounts s))).

(** ** Responses and store faults *)

(** A response: the success body, or the status and [message] of an error
    response.  A message is a string literal, or a template literal with one
    interpolated number. *)
Inductive text :=
| Text (s : string)
| Interpolated (before : string) (n : Q) (after : string).
Coercion Text : string >-> text.

(** The string of a message, for a given printing of numbers. *)
Definition render (show : Q -> string) (t : text) : string :=
  match t with
  | Text s => s
  | Interpolated before n after => before +:+ show n +:+ after
  end.

Inductive response (A : Type) :=
| Success (body : A)
| Failure (status : Z) (message : text).
Arguments Success {A} body.
Arguments Failure {A} status message.

(** What the environment can make throw during one request: the settlement
    transaction, the discount-usage write, anything after that write (up to
    and including sending the response), and the rollback write. *)
Record faults := {
  tx_aborts : bool;
  usage_update_fails : bool;
  respond_fails : bool;
  rollback_fails : bool;
}.

Definition no_faults : faults :=
  {| tx_aborts := false; usage_update_fails := false;
     respond_fails := false; rollback_fails := false |}.

(** ** [POST /api/orders/buy] *)

Record buy_receipt := {
  buy_newWallet : Q;
  buy_gameName : string;
  buy_price : Q;
}.

(** The reads before the transaction: [Promise.all([userRef.get(),
    gameRef.get()])] and the checks on them.  The result is the snapshot
    [(user, game)] that the transaction is built from. *)
Definition buy_read (userId gameId : string) (s : store)
    : response (User.t * Game.t) :=
  if negb (truthy gameId) then Failure 400 "Missing gameId" else
  match users s !! userId, games s !! gameId with
  | None, _ => Failure 404 "User not found"
  | Some _, None => Failure 404 "Game not found"
  | Some user, Some game =>
      if Qltb (User.wallet user) (Game.price game)
      then Failure 400 "เงินในกระเป๋าไม่พอ"
      else Success (user, game)
  end.

(** The writes of the [runTransaction] callback, applied all or none.
    They are computed from the snapshot [(user, game)], not from [s]. *)
Definition buy_tx (userId gameId : string) (user : User.t) (game : Game.t)
    (s : store) : option store :=
  s1 ← update_user userId
         (λ _, {| User.wallet := User.wallet user - Game.price game |}) s;
  let s2 := add_order
    {| Order.userId := userId; Order.gameId := gameId;
       Order.gameName := Game.name game; Order.quantity := 1;
       Order.price := Game.price game; Order.status := "completed";
       Order.redeemCode := Some "" |} s1 in
  s3 ← update_game gameId
         (Game.set_totalSold (js_or (Game.totalSold game) 0 + 1)) s2;
  Some (grant userId gameId s3).

(** The response after the commit re-reads the user. *)
Definition buy_respond (userId : string) (game : Game.t) (s : store)
    : response buy_receipt :=
  match users s !! userId with
  | Some u =>
      Success {| buy_newWallet := User.wallet u;
                 buy_gameName := Game.name game;
                 buy_price := Game.price game |}
  | None => Failure 500 "Server Error"
  end.

Definition buy (f : faults) (userId gameId : string) (s : store)
    : store * response buy_receipt :=
  match buy_read userId gameId s with
  | Failure st msg => (s, Failure st msg)
  | Success (user, game) =>
      match (if tx_aborts f then None
             else buy_tx userId gameId user game s) with
      | None => (s, Failure 500 "Server Error")
      | Some s' =>
          if respond_fails f then (s', Failure 500 "Server Error")
          else (s', buy_respond userId game s')
      end
  end.

(** ** [POST /api/users/cart/checkout] *)

Record cart_item := { gameId : string; quantity : Z }.

(** The fields fetched by [.select("name", "price", "totalSold")]. *)
Record game_row := { name : string; price : Q; totalSold : Z }.

Definition select_row (g : Game.t) : game_row :=
  {| name := Game.name g; price := Game.price g;
     totalSold := Game.totalSold g |}.

Record checkout_receipt := {
  newWallet : Q;
  discount : Q;
  total : Q;
  finalTotal : Q;
  lines : list cart_item;
  redeemCode : string;
}.

(** [cartSnapshot.docs]: the documents of the user's cart, one per game
    identity.  Their order only decides the order in which the orders of
    one checkout are appended. *)
Definition cart_docs (userId : string) (s : store) : list (string * Z) :=
  map_to_list (default ∅ (cart s !! userId)).

Definition cartItems (docs : list (string * Z)) : list cart_item :=
  map (λ d, {| gameId := d.1; quantity := js_or d.2 1 |}) docs.

(** [cartItems.filter(item => !ownedGameIds.includes(item.gameId))]. *)
Definition filteredCart (userId : string) (s : store) : list cart_item :=
  filter (λ item, (userId, gameId item) ∉ library s)
         (cartItems (cart_docs userId s)).

(** [gamesData]: the documents of [games] whose identity is in the filtered
    cart.  The source asks for them ten identities at a time and appends
    the batches; the batches together cover the filtered cart. *)
Definition gamesData (items : list cart_item) (s : store)
    : list (string * game_row) :=
  omap (λ item, (λ g, (gameId item, select_row g)) <$> games s !! gameId item)
       items.

(** [Object.fromEntries(gamesData.map(g => [g.id, g]))]; the identities
    in a cart are distinct, so no entry overrides another. *)
Definition gameMap (items : list cart_item) (s : store)
    : gmap string game_row :=
  list_to_map (gamesData items s).

(** [filteredCart.reduce((sum, item) => sum + (game?.price || 0) *
    item.quantity, 0)]. *)
Definition line_price (gm : gmap string game_row) (item : cart_item) : Q :=
  (js_orQ (from_option price 0 (gm !! gameId item)) 0
   * inject_Z (quantity item))%Q.

Definition cart_total (gm : gmap string game_row) (items : list cart_item)
    : Q :=
  foldl (λ sum item, (sum + line_price gm item)%Q) 0%Q items.

(** The guard [discountData.isActive && (!expireDate || expireDate > now)]. *)
Definition applies (now : Z) (d : Discount.t) : bool :=
  Discount.isActive d &&
  match Discount.expireAt d with
  | None => true
  | Some e => now <? e
  end.

(** The discount granted by a stored code on [total]. *)
Definition promo_discount (now : Z) (total : Q) (d : Discount.t) : Q :=
  if applies now d then
    if String.eqb (Discount.type d) "percent"
    then (total * js_orQ (Discount.value d) 0 / 100)%Q
    else if String.eqb (Discount.type d) "fixed"
    then js_orQ (Discount.value d) 0
    else 0%Q
  else 0%Q.

(** [discountSnap]: the lookup runs only for a truthy [promoCode]. *)
Definition lookup_promo (promoCode : string) (s : store)
    : option (string * Discount.t) :=
  if truthy promoCode then find_discount (toUpperCase promoCode) s else None.

Definition checkout_discount (now : Z) (total : Q)
    (found : option (string * Discount.t)) : Q :=
  match found with
  | Some (_, d) => promo_discount now total d
  | None => 0%Q
  end.

(** The loop body of the transaction, for the lines from [items] on. *)
Fixpoint settle_lines (userId promoCode : string)
    (gm : gmap string game_row) (items : list cart_item) (s : store)
    : option store :=
  match items with
  | [] => Some s
  | item :: rest =>
      match gm !! gameId item with
      | None => settle_lines userId promoCode gm rest s
      | Some game =>
          let s1 := add_order
            {| Order.userId := userId; Order.gameId := gameId item;
               Order.gameName := name game;
               Order.quantity := quantity item;
               Order.price := (price game * inject_Z (quantity item))%Q;
               Order.status := "completed";
               Order.redeemCode := Some promoCode |} s in
          s2 ← update_game (gameId item)
                 (Game.set_totalSold
                    (js_or (totalSold game) 0 + quantity item)) s1;
          settle_lines userId promoCode gm rest
            (grant userId (gameId item) s2)
      end
  end.

(** [cartSnapshot.docs.forEach(doc => transaction.delete(doc.ref))]. *)
Definition delete_cart_docs (userId : string) (docs : list (string * Z))
    (s : store) : store :=
  set_cart (alter (λ c, foldr (λ d c', delete d.1 c') c docs) userId (cart s))
           s.

(** The writes of the [runTransaction] callback, applied all or none; they
    are computed from [user], [gm] and [docs] as read before it. *)
Definition checkout_tx (userId promoCode : string) (user : User.t)
    (finalTotal : Q) (items : list cart_item) (gm : gmap string game_row)
    (docs : list (string * Z)) (s : store) : option store :=
  s1 ← update_user userId
         (λ _, {| User.wallet :=
                    (js_orQ (User.wallet user) 0 - finalTotal)%Q |}) s;
  s2 ← settle_lines userId promoCode gm items s1;
  Some (delete_cart_docs userId docs s2).

(** The discount-usage write after the commit; [d] is [discountData], the
    copy read before the transaction. *)
Definition newUsedCount (d : Discount.t) : Z :=
  js_or (Discount.usedCount d) 0 + 1.

Definition stillActive (d : Discount.t) : bool :=
  newUsedCount d <? js_or (Discount.usageLimit d) 1.

Definition usage_update (userId ref : string) (d : Discount.t) (s : store)
    : option store :=
  update_discount ref
    (λ cur, Discount.set_usage (arrayUnion (Discount.usedBy cur) userId)
              (newUsedCount d) (stillActive d) cur) s.

(** The rollback write of the [catch] block. *)
Definition rollbackCount (d : Discount.t) : Z :=
  Z.max (js_or (Discount.usedCount d) 1 - 1) 0.

Definition rollback_update (userId ref : string) (d : Discount.t)
    (s : store) : option store :=
  update_discount ref
    (λ cur, Discount.set_usage (arrayRemove (Discount.usedBy cur) userId)
              (rollbackCount d) true cur) s.

(** The [catch] block: the rollback runs when [promoCodeUsed] is set (and
    then [discountDocRef], [discountData] and [userIdRolledBack] are);
    a failing rollback is logged only. *)
Definition checkout_catch (f : faults) (userId : string)
    (promoCodeUsed : bool) (found : option (string * Discount.t))
    (s : store) : store :=
  match found with
  | Some (ref, d) =>
      if promoCodeUsed && negb (rollback_fails f)
      then default s (rollback_update userId ref d s)
      else s
  | None => s
  end.

(** The discount-usage step: the store after it and [promoCodeUsed]. *)
Definition usage_step (f : faults) (userId : string)
    (found : option (string * Discount.t)) (s : store) : store * bool :=
  match found with
  | Some (ref, d) =>
      if usage_update_fails f then (s, false)
      else match usage_update userId ref d s with
           | Some s' => (s', true)
           | None => (s, false)
           end
  | None => (s, false)
  end.

(** The amounts computed before the user is read: [total], [discount] and
    [finalTotal = Math.max(total - discount, 0)]. *)
Definition checkout_total (userId : string) (s : store) : Q :=
  let items := filteredCart userId s in
  cart_total (gameMap items s) items.

Definition checkout_finalTotal (now : Z) (userId promoCode : string)
    (s : store) : Q :=
  let total := checkout_total userId s in
  Qmax (total - checkout_discount now total (lookup_promo promoCode s)) 0.

Definition checkout (f : faults) (now : Z) (userId promoCode : string)
    (s : store) : store * response checkout_receipt :=
  let docs := cart_docs userId s in
  if bool_decide (docs = []) then (s, Failure 400 "ตะกร้าว่าง") else
  let items := filteredCart userId s in
  if bool_decide (items = [])
  then (s, Failure 400 "คุณมีเกมทั้งหมดในตะกร้าแล้ว") else
  let gm := gameMap items s in
  let total := checkout_total userId s in
  let found := lookup_promo promoCode s in
  let discount := checkout_discount now total found in
  let finalTotal := checkout_finalTotal now userId promoCode s in
  match users s !! userId with
  | None => (s, Failure 404 "ไม่พบผู้ใช้")
  | Some user =>
      if Qltb (js_orQ (User.wallet user) 0) finalTotal
      then (s, Failure 400 "เงินไม่พอ") else
      match (if tx_aborts f then None
             else checkout_tx userId promoCode user finalTotal items gm
                    docs s) with
      | None => (checkout_catch f userId false found s,
                 Failure 500 "Server Error")
      | Some s1 =>
          let '(s2, promoCodeUsed) := usage_step f userId found s1 in
          if respond_fails f
          then (checkout_catch f userId promoCodeUsed found s2,
                Failure 500 "Server Error")
          else (s2, Success
                  {| newWallet := (User.wallet user - finalTotal)%Q;
                     discount := discount; total := total;
                     finalTotal := finalTotal; lines := items;
                     redeemCode := promoCode |})
      end
  end.

(** ** [POST /api/orders] *)

Record order_request := {
  req_userId : string;
  req_gameId : string;
  req_gameName : string;
  req_price : Q;
  req_quantity : Z;
  req_redeemCode : string;
}.

(** [redeemCode || null]. *)
Definition or_null (s : string) : option string :=
  if truthy s then Some s else None.

(** The write [doc.ref.update({usedCount: newCount, lastUsedAt})]. *)
Definition bump_usedCount (ref : string) (d : Discount.t) (s : store)
    : option store :=
  update_discount ref
    (λ cur, Discount.set_usage (Discount.usedBy cur)
              (js_or (Discount.usedCount d) 0 + 1) (Discount.isActive cur)
              cur) s.

(** Here [tx_aborts] is a failing [add] of the order and
    [usage_update_fails] a failing write of [usedCount]; neither write is
    undone by the other's failure. *)
Definition post_orders (f : faults) (r : order_request) (s : store)
    : store * response unit :=
  if tx_aborts f then (s, Failure 500 "Error saving order") else
  let s1 := add_order
    {| Order.userId := req_userId r; Order.gameId := req_gameId r;
       Order.gameName := req_gameName r; Order.quantity := req_quantity r;
       Order.price := req_price r; Order.status := "completed";
       Order.redeemCode := or_null (req_redeemCode r) |} s in
  if truthy (req_redeemCode r) then
    match find_discount (req_redeemCode r) s1 with
    | None => (s1, Success ())
    | Some (ref, d) =>
        if usage_update_fails f then (s1, Failure 500 "Error saving order")
        else match bump_usedCount ref d s1 with
             | Some s2 => (s2, Success ())
             | None => (s1, Failure 500 "Error saving order")
             end
    end
  else (s1, Success ()).

(** ** [GET /api/discounts/check/:code] *)

Definition msg_not_found : text := "ไม่พบโค้ดส่วนลดนี้".
Definition msg_inactive : text := "โค้ดนี้ไม่สามารถใช้งานได้".
Definition msg_used_up : text := "โค้ดนี้ถูกใช้ครบแล้ว".
Definition msg_expired : text := "โค้ดหมดอายุแล้ว".
Definition msg_min_spend (minSpend : Q) : text :=
  Interpolated "ยอดขั้นต่ำต้องมากกว่า " minSpend " บาท".
Definition msg_already_used : text := "คุณใช้โค้ดนี้ไปแล้ว".

(** [userId] and [total] come from the query string: [None] when absent.
    [total] is the number [Number(total)] of a non-empty parameter. *)
Definition discount_check (now : Z) (code : string)
    (userId : option string) (total : option Q) (s : store)
    : response (string * Discount.t) :=
  match find_discount (toUpperCase (trim code)) s with
  | None => Failure 404 msg_not_found
  | Some (ref, data) =>
      if negb (Discount.isActive data) then Failure 400 msg_inactive
      else if Discount.usageLimit data <=? Discount.usedCount data
      then Failure 400 msg_used_up
      else match Discount.expireAt data with
      | None => Failure 500 "Error checking discount"
      | Some e =>
          if e <? now then Failure 400 msg_expired
          else if negb (Qeq_bool (Discount.minSpend data) 0)
                  && from_option (λ t, Qltb t (Discount.minSpend data))
                       false total
          then Failure 400 (msg_min_spend (Discount.minSpend data))
          else if from_option (includes (Discount.usedBy data)) false userId
          then Failure 400 msg_already_used
          else Success (ref, data)
      end
  end.

(** ** Sample data *)

Definition game_a : Game.t :=
  {| Game.name := "Alpha"; Game.price := 60; Game.totalSold := 0;
     Game.isActive := true |}.

Definition game_b : Game.t :=
  {| Game.name := "Beta"; Game.price := 30; Game.totalSold := 4;
     Game.isActive := true |}.

Definition game_c : Game.t :=
  {| Game.name := "Gamma"; Game.price := 200; Game.totalSold := 0;
     Game.isActive := true |}.

(** [gD] has its active flag off. *)
Definition game_d : Game.t :=
  {| Game.name := "Delta"; Game.price := 40; Game.totalSold := 0;
     Game.isActive := false |}.

(** [FIXED10]: fixed 10, a single use, already used by [u2] and switched
    off by that use. *)
Definition fixed10 : Discount.t :=
  {| Discount.code := "FIXED10"; Discount.type := "fixed";
     Discount.value := 10; Discount.minSpend := 0;
     Discount.maxDiscount := None; Discount.expireAt := Some 2000;
     Discount.isActive := false; Discount.usedBy := ["u2"];
     Discount.usedCount := 1; Discount.usageLimit := 1 |}.

(** [SAVE10]: ten percent, capped at 5 by [maxDiscount]. *)
Definition save10 : Discount.t :=
  {| Discount.code := "SAVE10"; Discount.type := "percent";
     Discount.value := 10; Discount.minSpend := 0;
     Discount.maxDiscount := Some 5%Q; Discount.expireAt := Some 2000;
     Discount.isActive := true; Discount.usedBy := [];
     Discount.usedCount := 0; Discount.usageLimit := 10 |}.

(** [BIG5]: fixed 5 from a minimum spend of 100, used once out of five. *)
Definition big5 : Discount.t :=
  {| Discount.code := "BIG5"; Discount.type := "fixed";
     Discount.value := 5; Discount.minSpend := 100;
     Discount.maxDiscount := None; Discount.expireAt := Some 2000;
     Discount.isActive := true; Discount.usedBy := ["u2"];
     Discount.usedCount := 1; Discount.usageLimit := 5 |}.

Definition shop : store :=
  {| users := {[ "u1" := {| User.wallet := 100 |};
                 "u2" := {| User.wallet := 500 |};
                 "u3" := {| User.wallet := 50 |} ]};
     games := {[ "gA" := game_a; "gB" := game_b; "gC" := game_c;
                 "gD" := game_d ]};
     discounts := {[ "d1" := fixed10; "d2" := save10; "d3" := big5 ]};
     orders := [];
     library := ∅;
     cart := {[ "u1" := {[ "gA" := 1 ]}; "u2" := {[ "gC" := 1 ]};
                "u3" := {[ "gD" := 1 ]} ]} |}.

Definition wallet_of (userId : string) (s : store) : option Q :=
  User.wallet <$> users s !! userId.

(** ** Concurrent requests *)

(** Requests are handled concurrently, and a handler reads before it opens
    its transaction; the callbacks of [runTransaction] contain no
    [transaction.get], so a commit does not depend on what another request
    committed in between.  [checkout_commit] is the transaction of a
    checkout whose reads saw the store [seen], committed on the store [s]. *)
Definition checkout_commit (now : Z) (userId promoCode : string)
    (seen s : store) : option store :=
  user ← users seen !! userId;
  checkout_tx userId promoCode user
    (checkout_finalTotal now userId promoCode seen)
    (filteredCart userId seen) (gameMap (filteredCart userId seen) seen)
    (cart_docs userId seen) s.

(** Two direct buys that both read [s] before either commits. *)
Definition buy_race (userId1 gameId1 userId2 gameId2 : string) (s : store)
    : option store :=
  match buy_read userId1 gameId1 s, buy_read userId2 gameId2 s with
  | Success (user1, game1), Success (user2, game2) =>
      s1 ← buy_tx userId1 gameId1 user1 game1 s;
      buy_tx userId2 gameId2 user2 game2 s1
  | _, _ => None
  end.

(** A direct buy and a checkout that both read [s]; the buy commits
    first. *)
Definition buy_checkout_race (userId1 gameId1 : string) (now : Z)
    (userId2 promoCode : string) (s : store) : option store :=
  match buy_read userId1 gameId1 s with
  | Success (user1, game1) =>
      s1 ← buy_tx userId1 gameId1 user1 game1 s;
      checkout_commit now userId2 promoCode s s1
  | Failure _ _ => None
  end.

(** ** Completed orders of a game *)

Definition completed_orders (gid : string) (s : store) : Z :=
  Z.of_nat (length (filter (λ o, Order.gameId o = gid /\
                                 Order.status o = "completed")
                           (orders s))).

Definition sold (gid : string) (s : store) : option Z :=
  Game.totalSold <$> games s !! gid.

(** The sending of the response throws. *)
Definition respond_fault : faults :=
  {| tx_aborts := false; usage_update_fails := false;
     respond_fails := true; rollback_fails := false |}.

(** ** The in-memory cache *)

Module Cache.
(** An entry of [cache]: [{ data, expire }]. *)
Record entry (A : Type) := { data : A; expire : Z }.
Arguments data {A} e.
Arguments expire {A} e.

(** [setCache(key, data, ttl = 30_000)] at the instant [now]; [ttl] is
    [None] when the argument is left out. *)
Definition setCache {A : Type} (now : Z) (key : string) (d : A)
    (ttl : option Z) (c : gmap string (entry A)) : gmap string (entry A) :=
  <[key := {| data := d; expire := now + default 30000 ttl |}]> c.

(** [getCache(key)] at the instant [now]: the cache afterwards and the
    result, [None] for [null]. *)
Definition getCache {A : Type} (now : Z) (key : string)
    (c : gmap string (entry A)) : gmap string (entry A) * option A :=
  match c !! key with
  | None => (c, None)
  | Some e => if expire e <? now then (delete key c, None)
              else (c, Some (data e))
  end.

(** [clearCacheByPrefix(prefix)]: every key that starts with [prefix] is
    deleted. *)
Definition clearCacheByPrefix {A : Type} (prefix : string)
    (c : gmap string (entry A)) : gmap string (entry A) :=
  filter (λ kv, String.prefix prefix kv.1 = false) c.
End Cache.

(** [String.prototype.toLowerCase], on the ASCII letters. *)
Definition lower_ascii (c : ascii) : ascii :=
  let n := nat_of_ascii c in
  if (Nat.leb 65 n && Nat.leb n 90)%bool then ascii_of_nat (n + 32) else c.

Fixpoint toLowerCase (s : string) : string :=
  match s with
  | EmptyString => EmptyString
  | String c r => String (lower_ascii c) (toLowerCase r)
  end.

(** The key of a catalogue listing in [GET /api/games],
    [`games:${categoryId || "all"}:${search.toLowerCase()}`]. *)
Definition games_key (categoryId search : string) : string :=
  "games:" +:+ (if truthy categoryId then categoryId else "all") +:+ ":"
  +:+ toLowerCase search.

(** The keys of the other cached values: [GET /api/categories],
    [POST /api/login] and [POST /api/register]. *)
Definition categories_key : string := "categories".
Definition login_key (identifier : string) : string :=
  "login:" +:+ identifier.
Definition user_key (email : string) : string := "user:" +:+ email.
Definition userId_key (id : string) : string := "userId:" +:+ id.

(** ** The cart endpoints *)

(** [POST /api/users/cart/add].  The store refuses the empty string as a
    document identity, which sends the handler to its [catch]; the body of
    that response has no message. *)
Definition cart_add (userId gid : string) (qty : Z) (s : store)
    : store * response unit :=
  if negb (truthy gid) then (s, Failure 500 "") else
  let c := default ∅ (cart s !! userId) in
  match c !! gid with
  | Some q =>
      (set_cart (<[userId := <[gid := q + js_or qty 1]> c]> (cart s)) s,
       Success ())
  | None =>
      (set_cart (<[userId := <[gid := js_or qty 1]> c]> (cart s)) s,
       Success ())
  end.

(** [POST /api/users/cart/remove]. *)
Definition cart_remove (userId gid : string) (s : store)
    : store * response unit :=
  if negb (truthy gid) then (s, Failure 500 "") else
  (set_cart (alter (delete gid) userId (cart s)) s, Success ()).

(** [GET /api/users/cart]: [{ gameId: doc.id, quantity }] per document. *)
Definition cart_list (userId : string) (s : store) : list cart_item :=
  map (λ d, {| gameId := d.1; quantity := d.2 |}) (cart_docs userId s).

(** The stored quantity of a game in a user's cart. *)
Definition cart_quantity (userId gid : string) (s : store) : option Z :=
  default ∅ (cart s !! userId) !! gid.

(** The orders written by the settlement loop, in the order of [items]. *)
Definition line_orders (userId promoCode : string)
    (gm : gmap string game_row) (items : list cart_item) : list Order.t :=
  omap (λ item,
          (λ game,
             {| Order.userId := userId; Order.gameId := gameId item;
                Order.gameName := name game;
                Order.quantity := quantity item;
                Order.price := (price game * inject_Z (quantity item))%Q;
                Order.status := "completed";
                Order.redeemCode := Some promoCode |})
          <$> gm !! gameId item) items.

(** ** [POST /api/users/topup] *)

Module Topup.
(** A document of [topup_history] as the handler writes it ([createdAt]
    left out). *)
Record t := { userId : string; amount : Q; method : string }.
End Topup.

(** The store together with the [topup_history] collection. *)
Record ledger := { db : store; topup_history : list Topup.t }.

(** The transaction: [t.update(userRef, {wallet: increment(amount)})] and
    [t.set] of a new history document, all or none. *)
Definition topup_tx (userId : string) (amount : Q) (method : string)
    (l : ledger) : option ledger :=
  s' ← update_user userId
         (λ u, {| User.wallet := (User.wallet u + amount)%Q |}) (db l);
  Some {| db := s';
          topup_history := topup_history l ++
            [{| Topup.userId := userId; Topup.amount := amount;
                Topup.method := if truthy method then method
                                else "wallet" |}] |}.

(** The handler; the success body is [newWallet], read after the commit. *)
Definition topup (f : faults) (userId : string) (amount : Q)
    (method : string) (l : ledger) : ledger * response Q :=
  if Qle_bool amount 0 then (l, Failure 400 "Invalid amount") else
  match (if tx_aborts f then None else topup_tx userId amount method l) with
  | None => (l, Failure 500 "Server Error")
  | Some l' =>
      match users (db l') !! userId with
      | Some u => (l', Success (User.wallet u))
      | None => (l', Failure 500 "Server Error")
      end
  end.

(** ** [POST /api/users/cart/validate-promo] *)

Inductive promo_verdict :=
| PromoValid (discountType : string) (discountValue : Q)
| PromoInvalid (message : text).

(** [subtotal] is a number of the body, [0] when it is left out; the code
    is looked up as it was typed. *)
Definition validate_promo (now : Z) (userId promoCode : string)
    (subtotal : Q) (s : store) : promo_verdict :=
  if negb (truthy promoCode) then PromoInvalid "โปรดกรอกโค้ด" else
  match find_discount promoCode s with
  | None => PromoInvalid "โค้ดไม่ถูกต้อง"
  | Some (_, data) =>
      if from_option (λ e, e <? now) false (Discount.expireAt data)
      then PromoInvalid "โค้ดหมดอายุแล้ว"
      else if negb (Qeq_bool subtotal 0)
              && Qltb subtotal (js_orQ (Discount.minSpend data) 0)
      then PromoInvalid
             (Interpolated "ขั้นต่ำสำหรับโค้ดนี้คือ "
                (Discount.minSpend data) "")
      else if negb (Discount.usageLimit data =? 0)
              && (Discount.usageLimit data
                  <=? js_or (Discount.usedCount data) 0)
      then PromoInvalid "โค้ดนี้ใช้ครบจำนวนครั้งแล้ว"
      else if includes (Discount.usedBy data) userId
      then PromoInvalid "คุณเคยใช้โค้ดนี้แล้ว"
      else PromoValid (Discount.type data) (Discount.value data)
  end.

(** ** The discount administration *)

(** [GET /api/discounts]: a document that is expired and still active is
    switched off, in the answer and in the store.  The query orders by
    [createdAt], a field every document written by [POST /api/discounts]
    carries; the order of the answer and a failing update are left out. *)
Definition expired_active (now : Z) (d : Discount.t) : bool :=
  from_option (λ e, e <? now) false (Discount.expireAt d)
  && Discount.isActive d.

Definition sweep_doc (now : Z) (d : Discount.t) : Discount.t :=
  if expired_active now d
  then Discount.set_usage (Discount.usedBy d) (Discount.usedCount d) false d
  else d.

(** The store after the updates collected in [updates]. *)
Definition discount_sweep (now : Z) (s : store) : store :=
  set_discounts (sweep_doc now <$> discounts s) s.

(** The [status] of a listed document, computed after the switch-off. *)
Definition discount_status (now : Z) (d : Discount.t) : string :=
  let d' := sweep_doc now d in
  if negb (Discount.isActive d') then "ถูกปิดใช้งาน"
  else if Discount.usageLimit d' <=? Discount.usedCount d'
  then "ถูกใช้ครบแล้ว"
  else "ใช้งานได้".

(** The body of [POST /api/discounts]; a number that is left out is [0],
    [expireAt] is [None] when left out. *)
Record discount_request := {
  new_code : string;
  new_type : string;
  new_value : Q;
  new_minSpend : Q;
  new_maxDiscount : Q;
  new_expireAt : option Z;
  new_usageLimit : Z;
}.

Definition newDiscount (r : discount_request) (expire : Z) : Discount.t :=
  {| Discount.code := toUpperCase (new_code r);
     Discount.type := new_type r;
     Discount.value := new_value r;
     Discount.minSpend := js_orQ (new_minSpend r) 0;
     Discount.maxDiscount :=
       if Qeq_bool (new_maxDiscount r) 0 then None
       else Some (new_maxDiscount r);
     Discount.expireAt := Some expire;
     Discount.isActive := true;
     Discount.usedBy := [];
     Discount.usedCount := 0;
     Discount.usageLimit := js_or (new_usageLimit r) 1 |}.

(** [POST /api/discounts]; [newId] is the identity that [add] generates
    for the new document. *)
Definition discount_create (newId : string) (r : discount_request)
    (s : store) : store * response unit :=
  match new_expireAt r with
  | Some expire =>
      if negb (truthy (new_code r)) || negb (truthy (new_type r))
         || Qeq_bool (new_value r) 0
      then (s, Failure 400 "กรุณากรอกข้อมูลให้ครบ")
      else match find_discount (toUpperCase (new_code r)) s with
           | Some _ => (s, Failure 400 "โค้ดนี้มีอยู่แล้ว")
           | None =>
               (set_discounts (<[newId := newDiscount r expire]>
                                 (discounts s)) s,
                Success ())
           end
  | None => (s, Failure 400 "กรุณากรอกข้อมูลให้ครบ")
  end.

(** [PUT /api/discounts/:id/toggle]; [isActive] is [None] when the body
    does not carry a boolean. *)
Definition discount_toggle (id : string) (isActive : option bool)
    (s : store) : store * response unit :=
  match isActive with
  | None => (s, Failure 400 "Missing isActive boolean")
  | Some b =>
      match update_discount id
              (λ cur, Discount.set_usage (Discount.usedBy cur)
                        (Discount.usedCount cur) b cur) s with
      | Some s' => (s', Success ())
      | None => (s, Failure 500 "Server error while toggling discount")
      end
  end.

(** No two documents of [discounts] carry the same code, and every code is
    in upper case. *)
Definition codes_unique (s : store) : Prop :=
  forall id1 id2 d1 d2,
    discounts s !! id1 = Some d1 -> discounts s !! id2 = Some d2 ->
    Discount.code d1 = Discount.code d2 -> id1 = id2.

Definition codes_upper (s : store) : Prop :=
  forall id d, discounts s !! id = Some d ->
               toUpperCase (Discount.code d) = Discount.code d.

(** ** [POST /api/games] *)

(** The handler, as far as the fields that settlement reads.  [price] is
    the field of the multipart body: [None] when it is missing or empty,
    otherwise the number [Number(price)]; [hasImage] says whether a file
    came with the request.  The upload of the image is taken to succeed;
    [newId] is the identity that [add] generates for the new document. *)
Definition game_create (newId name categoryId : string) (price : option Q)
    (hasImage : bool) (s : store) : store * response unit :=
  match price with
  | Some p =>
      if negb (truthy name) || negb (truthy categoryId)
      then (s, Failure 400 "Missing fields")
      else if negb hasImage then (s, Failure 400 "Image required")
      else (set_games
              (<[newId := {| Game.name := name; Game.price := p;
                             Game.totalSold := 0;
                             Game.isActive := true |}]> (games s)) s,
            Success ())
  | None => (s, Failure 400 "Missing fields")
  end.

(** ** More sample data *)

(** [FIXED10], used once out of one, switched on again. *)
Definition fixed10_on : Discount.t :=
  Discount.set_usage (Discount.usedBy fixed10) (Discount.usedCount fixed10)
    true fixed10.

Definition shop_reopened : store :=
  set_discounts (<["d1" := fixed10_on]> (discounts shop)) shop.


(** [PAUSE20]: twenty percent, switched off by hand, never used. *)
Definition pause20 : Discount.t :=
  {| Discount.code := "PAUSE20"; Discount.type := "percent";
     Discount.value := 20; Discount.minSpend := 0;
     Discount.maxDiscount := None; Discount.expireAt := Some 2000;
     Discount.isActive := false; Discount.usedBy := [];
     Discount.usedCount := 0; Discount.usageLimit := 5 |}.

Definition shop2 : store :=
  set_discounts (<["d4" := pause20]> (discounts shop)) shop.

Definition bank : ledger := {| db := shop; topup_history := [] |}.

(** * Properties *)

(** ** JavaScript helpers *)

Example toUpperCase_ex : toUpperCase "fixed10" = "FIXED10".
Proof. reflexivity. Qed.

Example trim_ex : trim "  big 5  " = "big 5".
Proof. reflexivity. Qed.

Example arrayUnion_ex :
  arrayUnion ["u2"] "u1" = ["u2"; "u1"] /\ arrayUnion ["u2"] "u2" = ["u2"].
Proof. split; reflexivity. Qed.

Lemma Qltb_lt (a b : Q) : Qltb a b = true <-> (a < b)%Q.
Proof.
  unfold Qltb. rewrite negb_true_iff, <- not_true_iff_false, Qle_bool_iff.
  split; [apply Qnot_le_lt | apply Qlt_not_le].
Qed.

Lemma Qltb_ge (a b : Q) : Qltb a b = false <-> (b <= a)%Q.
Proof. unfold Qltb. rewrite negb_false_iff. apply Qle_bool_iff. Qed.

Lemma js_orQ_0 (x : Q) : (js_orQ x 0 == x)%Q.
Proof.
  unfold js_orQ. destruct (Qeq_bool x 0) eqn:E; [|reflexivity].
  apply Qeq_bool_iff in E. symmetry. exact E.
Qed.

Lemma js_or_0 (x : Z) : js_or x 0 = x.
Proof. unfold js_or. destruct (Z.eqb_spec x 0); congruence. Qed.

Lemma includes_true (l : list string) (x : string) :
  includes l x = true <-> x ∈ l.
Proof. unfold includes. apply bool_decide_eq_true. Qed.

Lemma arrayUnion_elem (l : list string) (x y : string) :
  y ∈ arrayUnion l x <-> y ∈ l \/ y = x.
Proof.
  unfold arrayUnion. destruct (includes l x) eqn:E.
  - apply includes_true in E. split; [auto | intros [?| ->]; auto].
  - rewrite elem_of_app, list_elem_of_singleton. tauto.
Qed.

Lemma arrayUnion_NoDup (l : list string) (x : string) :
  NoDup l -> NoDup (arrayUnion l x).
Proof.
  intros Hl. unfold arrayUnion. destruct (includes l x) eqn:E; [done|].
  apply NoDup_app. split; [done|]. split; [|apply NoDup_singleton].
  intros y Hy Hx. apply list_elem_of_singleton in Hx as ->.
  apply includes_true in Hy. congruence.
Qed.

Lemma arrayRemove_not_elem (l : list string) (x : string) :
  x ∉ arrayRemove l x.
Proof. unfold arrayRemove. rewrite list_elem_of_filter. tauto. Qed.

(** ** The store *)

Lemma find_discount_lookup (c ref : string) (d : Discount.t) (s : store) :
  find_discount c s = Some (ref, d) ->
  discounts s !! ref = Some d /\ Discount.code d = c.
Proof.
  unfold find_discount. intros H. apply head_Some_elem_of in H.
  apply list_elem_of_filter in H as [Hc Hin].
  apply elem_of_map_to_list in Hin. auto.
Qed.

Lemma find_discount_None (c : string) (s : store) :
  find_discount c s = None <->
  forall ref d, discounts s !! ref = Some d -> Discount.code d <> c.
Proof.
  unfold find_discount. rewrite head_None. split.
  - intros H ref d Hd Hc.
    assert (Hin : (ref, d) ∈ filter (λ kv, Discount.code kv.2 = c)
                    (map_to_list (discounts s))).
    { apply list_elem_of_filter. split; [done|]. by apply elem_of_map_to_list. }
    rewrite H in Hin. by apply not_elem_of_nil in Hin.
  - intros H.
    destruct (filter _ (map_to_list (discounts s))) as [|[ref d] l] eqn:E;
      [done|].
    assert (Hin : (ref, d) ∈ filter (λ kv, Discount.code kv.2 = c)
                    (map_to_list (discounts s))).
    { rewrite E. apply list_elem_of_here. }
    apply list_elem_of_filter in Hin as [Hc Hin].
    apply elem_of_map_to_list in Hin. by destruct (H ref d Hin).
Qed.

Lemma update_user_Some (id : string) (f : User.t -> User.t) (s s' : store) :
  update_user id f s = Some s' ->
  exists u, users s !! id = Some u /\
            s' = set_users (<[id := f u]> (users s)) s.
Proof.
  unfold update_user. destruct (users s !! id); [|discriminate].
  intros [= <-]. eauto.
Qed.

Lemma update_game_Some (id : string) (f : Game.t -> Game.t) (s s' : store) :
  update_game id f s = Some s' ->
  exists g, games s !! id = Some g /\
            s' = set_games (<[id := f g]> (games s)) s.
Proof.
  unfold update_game. destruct (games s !! id); [|discriminate].
  intros [= <-]. eauto.
Qed.

Lemma update_discount_Some (id : string) (f : Discount.t -> Discount.t)
    (s s' : store) :
  update_discount id f s = Some s' ->
  exists d, discounts s !! id = Some d /\
            s' = set_discounts (<[id := f d]> (discounts s)) s.
Proof.
  unfold update_discount. destruct (discounts s !! id); [|discriminate].
  intros [= <-]. eauto.
Qed.

(** The settlement loop writes orders, games and the library only. *)
Lemma settle_lines_frame (userId promoCode : string)
    (gm : gmap string game_row) (items : list cart_item) (s s' : store) :
  settle_lines userId promoCode gm items s = Some s' ->
  users s' = users s /\ discounts s' = discounts s /\ cart s' = cart s.
Proof.
  revert s. induction items as [|item rest IH]; intros s; simpl.
  - by intros [= <-].
  - destruct (gm !! gameId item) as [game|]; [|apply IH].
    destruct (update_game _ _ _) as [s2|] eqn:E; [|discriminate]. simpl.
    intros H. apply IH in H as (-> & -> & ->).
    apply update_game_Some in E as (g & _ & ->). done.
Qed.

Lemma checkout_tx_frame (userId promoCode : string) (user : User.t)
    (ft : Q) (items : list cart_item) (gm : gmap string game_row)
    (docs : list (string * Z)) (s s' : store) :
  checkout_tx userId promoCode user ft items gm docs s = Some s' ->
  is_Some (users s !! userId) /\
  users s' = <[userId := {| User.wallet :=
                              (js_orQ (User.wallet user) 0 - ft)%Q |}]>
               (users s) /\
  discounts s' = discounts s.
Proof.
  unfold checkout_tx. intros H.
  destruct (update_user _ _ s) as [s1|] eqn:E1; [|discriminate].
  simpl in H.
  destruct (settle_lines _ _ _ _ s1) as [s2|] eqn:E2; [|discriminate].
  simpl in H. injection H as <-.
  apply update_user_Some in E1 as (u & Hu & ->).
  apply settle_lines_frame in E2 as (Hus & Hds & _). simpl in *.
  rewrite Hus, Hds. eauto.
Qed.

Lemma usage_step_users (f : faults) (userId : string)
    (found : option (string * Discount.t)) (s : store) :
  users (usage_step f userId found s).1 = users s.
Proof.
  unfold usage_step. destruct found as [[ref d]|]; [|done].
  destruct (usage_update_fails f); [done|].
  destruct (usage_update _ _ _ _) as [s'|] eqn:E; [|done].
  apply update_discount_Some in E as (d0 & _ & ->). done.
Qed.

(** What a successful checkout went through. *)
Lemma checkout_Success (f : faults) (now : Z) (userId promoCode : string)
    (s s' : store) (r : checkout_receipt) :
  checkout f now userId promoCode s = (s', Success r) ->
  exists user s1,
    users s !! userId = Some user /\
    Qltb (js_orQ (User.wallet user) 0)
         (checkout_finalTotal now userId promoCode s) = false /\
    checkout_tx userId promoCode user
      (checkout_finalTotal now userId promoCode s) (filteredCart userId s)
      (gameMap (filteredCart userId s) s) (cart_docs userId s) s = Some s1 /\
    s' = (usage_step f userId (lookup_promo promoCode s) s1).1 /\
    r = {| newWallet :=
             (User.wallet user - checkout_finalTotal now userId promoCode s)%Q;
           discount := checkout_discount now (checkout_total userId s)
                         (lookup_promo promoCode s);
           total := checkout_total userId s;
           finalTotal := checkout_finalTotal now userId promoCode s;
           lines := filteredCart userId s;
           redeemCode := promoCode |}.
Proof.
  unfold checkout. intros H.
  destruct (bool_decide (cart_docs userId s = [])); [discriminate|].
  destruct (bool_decide (filteredCart userId s = [])); [discriminate|].
  destruct (users s !! userId) as [user|]; [|discriminate].
  destruct (Qltb _ _) eqn:Ew; [discriminate|].
  destruct (tx_aborts f); [discriminate|].
  destruct (checkout_tx _ _ _ _ _ _ _ _) as [s1|] eqn:Etx; [|discriminate].
  destruct (usage_step f userId _ s1) as [s2 used] eqn:Eu.
  destruct (respond_fails f); [discriminate|].
  injection H as <- <-. exists user, s1. rewrite Eu. auto.
Qed.

Lemma buy_read_Success (userId gameId : string) (s : store)
    (user : User.t) (game : Game.t) :
  buy_read userId gameId s = Success (user, game) ->
  truthy gameId = true /\ users s !! userId = Some user /\
  games s !! gameId = Some game /\
  (Game.price game <= User.wallet user)%Q.
Proof.
  unfold buy_read. destruct (truthy gameId); [|discriminate]. simpl.
  destruct (users s !! userId) as [u|]; [|discriminate].
  destruct (games s !! gameId) as [g|]; [|discriminate].
  destruct (Qltb _ _) eqn:E; [discriminate|].
  intros [= <- <-]. apply Qltb_ge in E. auto.
Qed.

Lemma buy_tx_Some (userId gameId : string) (user : User.t) (game : Game.t)
    (s s' : store) :
  buy_tx userId gameId user game s = Some s' ->
  users s' = <[userId := {| User.wallet :=
                              (User.wallet user - Game.price game)%Q |}]>
               (users s) /\
  discounts s' = discounts s /\ cart s' = cart s /\
  orders s' = orders s ++
    [{| Order.userId := userId; Order.gameId := gameId;
        Order.gameName := Game.name game; Order.quantity := 1;
        Order.price := Game.price game; Order.status := "completed";
        Order.redeemCode := Some "" |}] /\
  library s' = {[ (userId, gameId) ]} ∪ library s /\
  exists cur, games s !! gameId = Some cur /\
    games s' = <[gameId := Game.set_totalSold
                             (js_or (Game.totalSold game) 0 + 1) cur]>
                 (games s).
Proof.
  unfold buy_tx. intros H.
  destruct (update_user _ _ s) as [s1|] eqn:E1; [|discriminate].
  simpl in H.
  destruct (update_game _ _ _) as [s3|] eqn:E3; [|discriminate].
  simpl in H. injection H as <-.
  apply update_user_Some in E1 as (u & Hu & ->).
  apply update_game_Some in E3 as (g & Hg & ->). simpl in *. eauto 10.
Qed.

(** What a successful direct buy went through. *)
Lemma buy_Success (f : faults) (userId gameId : string) (s s' : store)
    (r : buy_receipt) :
  buy f userId gameId s = (s', Success r) ->
  exists user game,
    buy_read userId gameId s = Success (user, game) /\
    buy_tx userId gameId user game s = Some s' /\
    buy_price r = Game.price game.
Proof.
  unfold buy. destruct (buy_read userId gameId s) as [[user game]|] eqn:E;
    [|discriminate].
  destruct (tx_aborts f); [discriminate|].
  destruct (buy_tx _ _ _ _ _) as [s1|] eqn:Etx; [|discriminate].
  destruct (respond_fails f); [discriminate|].
  unfold buy_respond. destruct (users s1 !! userId); [|discriminate].
  intros [= <- <-]. eauto.
Qed.

(** ** C1: the wallet debit *)

(** What a successful settlement takes from the wallet: the stored price of
    the game for a direct buy, whatever its sign, and [finalTotal] for a
    cart checkout, which is never negative. *)
Lemma settlement_debit_amount :
  (forall f userId gameId s s' r user,
      buy f userId gameId s = (s', Success r) ->
      users s !! userId = Some user ->
      exists game user',
        games s !! gameId = Some game /\
        buy_price r = Game.price game /\
        users s' !! userId = Some user' /\
        (User.wallet user' == User.wallet user - Game.price game)%Q) /\
  (forall f now userId promoCode s s' r user,
      checkout f now userId promoCode s = (s', Success r) ->
      users s !! userId = Some user ->
      exists user',
        finalTotal r = checkout_finalTotal now userId promoCode s /\
        users s' !! userId = Some user' /\
        (User.wallet user' == User.wallet user - finalTotal r)%Q /\
        (0 <= finalTotal r)%Q).
Proof.
  split.
  - intros f userId gameId s s' r user H Hu.
    apply buy_Success in H as (user0 & game & Hr & Htx & Hpr).
    apply buy_read_Success in Hr as (_ & Hu0 & Hg0 & _).
    assert (user0 = user) as -> by congruence.
    apply buy_tx_Some in Htx as (Hus & _).
    exists game. eexists. split; [exact Hg0|]. split; [exact Hpr|].
    split; [rewrite Hus; apply lookup_insert_eq|]. simpl. reflexivity.
  - intros f now userId promoCode s s' r user H Hu.
    apply checkout_Success in H as (user0 & s1 & Hu0 & _ & Htx & -> & ->).
    assert (user0 = user) as -> by congruence.
    apply checkout_tx_frame in Htx as (_ & Hus & _).
    eexists. split; [reflexivity|]. split.
    + rewrite usage_step_users, Hus. apply lookup_insert_eq.
    + simpl. split.
      * rewrite js_orQ_0. reflexivity.
      * unfold checkout_finalTotal. apply Q.le_max_r.
Qed.

(** C1.  The direct buy takes the stored price as it is, and
    [POST /api/games] stores a negative price as it comes.  After a game
    priced -5 has been created, a direct buy of it by [u1], whose wallet is
    100, succeeds, records an order priced -5 and leaves the wallet at 105:
    the wallet is the balance before minus the amount, but the amount is
    negative. *)
Theorem buy_charges_negative_price :
  exists s0 s' r w,
    game_create "gN" "Refund" "c1" (Some (-5)%Q) true shop
    = (s0, Success ()) /\
    wallet_of "u1" s0 = Some 100%Q /\
    buy no_faults "u1" "gN" s0 = (s', Success r) /\
    buy_price r = (-5)%Q /\ ~ (0 <= buy_price r)%Q /\
    wallet_of "u1" s' = Some w /\
    (w == 100 - buy_price r)%Q /\ (w == 105)%Q /\
    (Order.price <$> orders s') = [(-5)%Q].
Proof.
  destruct (game_create "gN" "Refund" "c1" (Some (-5)%Q) true shop)
    as [s0 [[]|st msg]] eqn:E0; vm_compute in E0; [|discriminate].
  injection E0 as <-.
  match goal with
  | |- exists s0 s' r w, (?c, _) = _ /\ _ =>
      destruct (buy no_faults "u1" "gN" c) as [s' [r|st msg]] eqn:E;
      vm_compute in E; [|discriminate]
  end.
  injection E as <- <-.
  eexists _, _, _, _. split; [reflexivity|].
  split; [vm_compute; reflexivity|]. split; [vm_compute; reflexivity|].
  split; [reflexivity|]. split; [vm_compute; intros H; apply H; reflexivity|].
  split; [vm_compute; reflexivity|].
  split; [reflexivity|]. split; reflexivity.
Qed.

(** ** C2: insufficient funds *)

(** C2.  When the wallet is below the amount the request computed (the
    price of the game for a direct buy, [finalTotal] for a checkout that got
    as far as pricing a non-empty filtered cart), the request answers 400
    with the insufficient-funds message and the store is unchanged: wallet,
    orders, [totalSold], library and cart are those of before. *)
Theorem insufficient_funds_no_mutation :
  (forall f userId gameId s user game,
      truthy gameId = true ->
      users s !! userId = Some user ->
      games s !! gameId = Some game ->
      (User.wallet user < Game.price game)%Q ->
      buy f userId gameId s = (s, Failure 400 "เงินในกระเป๋าไม่พอ")) /\
  (forall f now userId promoCode s user,
      cart_docs userId s <> [] ->
      filteredCart userId s <> [] ->
      users s !! userId = Some user ->
      (User.wallet user < checkout_finalTotal now userId promoCode s)%Q ->
      checkout f now userId promoCode s = (s, Failure 400 "เงินไม่พอ")).
Proof.
  split.
  - intros f userId gameId s user game Hid Hu Hg Hlt.
    unfold buy, buy_read. rewrite Hid, Hu, Hg. simpl.
    apply Qltb_lt in Hlt. rewrite Hlt. reflexivity.
  - intros f now userId promoCode s user Hdocs Hitems Hu Hlt.
    unfold checkout.
    rewrite (bool_decide_eq_false_2 _ Hdocs).
    rewrite (bool_decide_eq_false_2 _ Hitems).
    rewrite Hu.
    assert (Hw : Qltb (js_orQ (User.wallet user) 0)
                   (checkout_finalTotal now userId promoCode s) = true).
    { apply Qltb_lt. rewrite js_orQ_0. exact Hlt. }
    rewrite Hw. reflexivity.
Qed.

Lemma insufficient_funds_no_mutation_witness :
  buy no_faults "u1" "gC" shop = (shop, Failure 400 "เงินในกระเป๋าไม่พอ") /\
  checkout no_faults 1000 "u1" ""
    (set_cart {[ "u1" := {[ "gC" := 1 ]} ]} shop)
  = (set_cart {[ "u1" := {[ "gC" := 1 ]} ]} shop, Failure 400 "เงินไม่พอ").
Proof.
  destruct insufficient_funds_no_mutation as [Hbuy Hcheckout]. split.
  - apply (Hbuy no_faults "u1" "gC" shop {| User.wallet := 100 |} game_c);
      reflexivity.
  - apply (Hcheckout no_faults 1000 "u1" ""
             (set_cart {[ "u1" := {[ "gC" := 1 ]} ]} shop)
             {| User.wallet := 100 |});
      [vm_compute; discriminate | vm_compute; discriminate
      | reflexivity | reflexivity].
Defined.

(** ** C3: the amount of the discount *)

Lemma promo_discount_percent (now : Z) (total : Q) (d : Discount.t) :
  applies now d = true -> Discount.type d = "percent" ->
  (promo_discount now total d == total * Discount.value d / 100)%Q.
Proof.
  intros Ha Ht. unfold promo_discount. rewrite Ha, Ht. simpl.
  rewrite js_orQ_0. reflexivity.
Qed.

Lemma promo_discount_fixed (now : Z) (total : Q) (d : Discount.t) :
  applies now d = true -> Discount.type d = "fixed" ->
  (promo_discount now total d == Discount.value d)%Q.
Proof.
  intros Ha Ht. unfold promo_discount. rewrite Ha, Ht. simpl.
  apply js_orQ_0.
Qed.

Lemma Qmax_0_r (x : Q) : (0 <= x)%Q -> (Qmax x 0 == x)%Q.
Proof. intros H. apply Q.max_l. exact H. Qed.

(** C3, as stated, fails: with the ten-percent code [SAVE10], whose
    [maxDiscount] is 5, on a subtotal of 200 the checkout grants 20 and
    charges 180, not 5 and 195. *)
Lemma percent_cap_counterexample :
  exists s' r,
    checkout no_faults 1000 "u2" "save10" shop = (s', Success r) /\
    lookup_promo "save10" shop = Some ("d2", save10) /\
    Discount.maxDiscount save10 = Some 5%Q /\
    (total r == 200)%Q /\
    (discount r == 20)%Q /\ (finalTotal r == 180)%Q /\
    ~ (discount r == 5)%Q /\ ~ (finalTotal r == 195)%Q.
Proof.
  destruct (checkout no_faults 1000 "u2" "save10" shop) as [s' [r|st msg]]
    eqn:E; vm_compute in E; [|discriminate].
  injection E as _ <-. exists s'. eexists. split; [reflexivity|].
  repeat split; try reflexivity; discriminate.
Qed.

(** C3, amended.  For a code that the checkout accepts (active and not
    expired), a percent code grants [total * value / 100] whatever its
    [maxDiscount], a fixed code grants [value], and [finalTotal] is
    [max(total - discount, 0)], never negative.  In particular ten percent
    on a subtotal of 200 grants 20 and charges 180. *)
Theorem checkout_discount_amount :
  forall f now userId promoCode s s' r ref d,
    checkout f now userId promoCode s = (s', Success r) ->
    lookup_promo promoCode s = Some (ref, d) ->
    applies now d = true ->
    (Discount.type d = "percent" ->
       (discount r == total r * Discount.value d / 100)%Q) /\
    (Discount.type d = "fixed" -> (discount r == Discount.value d)%Q) /\
    (finalTotal r == Qmax (total r - discount r) 0)%Q /\
    (0 <= finalTotal r)%Q /\
    (Discount.type d = "percent" -> (Discount.value d == 10)%Q ->
       (total r == 200)%Q ->
       (discount r == 20)%Q /\ (finalTotal r == 180)%Q).
Proof.
  intros f now userId promoCode s s' r ref d H Hf Ha.
  apply checkout_Success in H as (user & s1 & _ & _ & _ & _ & ->).
  simpl. unfold checkout_finalTotal. rewrite Hf. simpl.
  set (t := checkout_total userId s).
  assert (Hpct : Discount.type d = "percent" ->
            (promo_discount now t d == t * Discount.value d / 100)%Q)
    by (apply promo_discount_percent; exact Ha).
  split; [exact Hpct|].
  split; [apply promo_discount_fixed; exact Ha|].
  split; [reflexivity|].
  split; [apply Q.le_max_r|].
  intros Ht Hv Htot. specialize (Hpct Ht).
  assert (Hd : (promo_discount now t d == 20)%Q).
  { rewrite Hpct, Hv, Htot. reflexivity. }
  split; [exact Hd|].
  rewrite Qmax_0_r; rewrite Hd, Htot; [reflexivity | discriminate].
Qed.

Lemma checkout_discount_amount_witness :
  exists s' r,
    checkout no_faults 1000 "u2" "save10" shop = (s', Success r) /\
    (discount r == total r * 10 / 100)%Q /\
    (finalTotal r == Qmax (total r - discount r) 0)%Q /\
    (0 <= finalTotal r)%Q.
Proof.
  destruct (checkout no_faults 1000 "u2" "save10" shop) as [s' [r|st msg]]
    eqn:E; [|vm_compute in E; discriminate].
  destruct (checkout_discount_amount no_faults 1000 "u2" "save10" shop s' r
              "d2" save10 E) as (Hp & _ & Hft & Hnn & _);
    [reflexivity | reflexivity |].
  exists s', r. split; [reflexivity|]. split; [apply Hp; reflexivity|].
  split; assumption.
Defined.

(** ** C4: codes that are not usable *)

Lemma applies_false (now : Z) (d : Discount.t) :
  applies now d = false <->
  Discount.isActive d = false \/
  exists e, Discount.expireAt d = Some e /\ e <= now.
Proof.
  unfold applies. destruct (Discount.isActive d); simpl.
  - destruct (Discount.expireAt d) as [e|].
    + rewrite Z.ltb_ge. split.
      * intros H. right. eauto.
      * intros [H|(e' & [= <-] & H)]; [discriminate | exact H].
    + split; [discriminate|]. intros [H|(e' & H & _)]; discriminate.
  - split; auto.
Qed.

Lemma discount_check_messages_distinct (show : Q -> string) (m : Q) :
  NoDup (render show <$>
           [msg_not_found; msg_inactive; msg_used_up; msg_expired;
            msg_min_spend m; msg_already_used]).
Proof.
  simpl.
  repeat (apply NoDup_cons; split;
          [rewrite ?not_elem_of_cons; repeat split;
           try apply not_elem_of_nil; discriminate|]).
  apply NoDup_nil_2.
Qed.

(** The checkout does not look at the minimum spend: [BIG5] asks for 100,
    the subtotal is 60, and its discount of 5 is granted. *)
Lemma min_spend_counterexample :
  exists s' r,
    checkout no_faults 1000 "u1" "big5" shop = (s', Success r) /\
    lookup_promo "big5" shop = Some ("d3", big5) /\
    (total r < Discount.minSpend big5)%Q /\
    (discount r == 5)%Q /\ ~ (discount r == 0)%Q.
Proof.
  destruct (checkout no_faults 1000 "u1" "big5" shop) as [s' [r|st msg]]
    eqn:E; vm_compute in E; [|discriminate].
  injection E as _ <-. exists s'. eexists. split; [reflexivity|].
  repeat split; try reflexivity; discriminate.
Qed.

(** The conditions that the checkout does honour: a supplied code that is
    absent, inactive or expired grants nothing, the discount is 0 and the
    cart is settled at [max(total, 0)], without a reason.  The reasons are
    those of [GET /api/discounts/check/:code], which answers each of its six
    conditions (absent, inactive, used up, expired, below the minimum spend,
    already used by the user) with a message of its own. *)
Theorem unusable_code_grants_nothing :
  (forall f now userId promoCode s s' r,
      checkout f now userId promoCode s = (s', Success r) ->
      lookup_promo promoCode s = None \/
      (exists ref d, lookup_promo promoCode s = Some (ref, d) /\
         (Discount.isActive d = false \/
          exists e, Discount.expireAt d = Some e /\ e <= now)) ->
      discount r = 0%Q /\ (finalTotal r == Qmax (total r) 0)%Q) /\
  (forall now code userId total s,
      (find_discount (toUpperCase (trim code)) s = None ->
       discount_check now code userId total s = Failure 404 msg_not_found) /\
      (forall ref d,
          find_discount (toUpperCase (trim code)) s = Some (ref, d) ->
          (Discount.isActive d = false ->
           discount_check now code userId total s
           = Failure 400 msg_inactive) /\
          (Discount.isActive d = true ->
           Discount.usageLimit d <= Discount.usedCount d ->
           discount_check now code userId total s
           = Failure 400 msg_used_up) /\
          (forall e,
              Discount.isActive d = true ->
              Discount.usedCount d < Discount.usageLimit d ->
              Discount.expireAt d = Some e ->
              (e < now ->
               discount_check now code userId total s
               = Failure 400 msg_expired) /\
              (forall t,
                  now <= e -> total = Some t ->
                  ~ (Discount.minSpend d == 0)%Q ->
                  (t < Discount.minSpend d)%Q ->
                  discount_check now code userId total s
                  = Failure 400 (msg_min_spend (Discount.minSpend d))) /\
              (forall u,
                  now <= e ->
                  (Discount.minSpend d == 0)%Q \/ total = None \/
                  (exists t, total = Some t /\
                             (Discount.minSpend d <= t)%Q) ->
                  userId = Some u -> u ∈ Discount.usedBy d ->
                  discount_check now code userId total s
                  = Failure 400 msg_already_used)))) /\
  (forall show m,
      NoDup (render show <$>
               [msg_not_found; msg_inactive; msg_used_up; msg_expired;
                msg_min_spend m; msg_already_used])).
Proof.
  split; [|split].
  - intros f now userId promoCode s s' r H Hbad.
    apply checkout_Success in H as (user & s1 & _ & _ & _ & _ & ->).
    simpl. unfold checkout_finalTotal.
    assert (Hd : checkout_discount now (checkout_total userId s)
                   (lookup_promo promoCode s) = 0%Q).
    { destruct Hbad as [->|(ref & d & -> & Hd)]; [reflexivity|].
      simpl. unfold promo_discount.
      apply applies_false in Hd. rewrite Hd. reflexivity. }
    rewrite Hd. split; [reflexivity|].
    apply Q.max_compat; [|reflexivity]. unfold Qminus. simpl.
    apply Qplus_0_r.
  - intros now code userId total s. unfold discount_check. split.
    + intros ->. reflexivity.
    + intros ref d ->. split; [|split].
      * intros ->. reflexivity.
      * intros -> Hl. apply Z.leb_le in Hl. simpl. rewrite Hl. reflexivity.
      * intros e -> Hl ->. apply Z.leb_gt in Hl. simpl. rewrite Hl.
        split; [|split].
        -- intros He. apply Z.ltb_lt in He. rewrite He. reflexivity.
        -- intros t He -> Hm Ht. apply Z.ltb_ge in He. rewrite He.
           apply Qltb_lt in Ht. simpl. rewrite Ht.
           destruct (Qeq_bool (Discount.minSpend d) 0) eqn:Em;
             [apply Qeq_bool_iff in Em; contradiction | reflexivity].
        -- intros u He Hm -> Hu. apply Z.ltb_ge in He. rewrite He.
           apply includes_true in Hu. simpl. rewrite Hu.
           assert (Hno : negb (Qeq_bool (Discount.minSpend d) 0) &&
                         from_option (λ t, Qltb t (Discount.minSpend d))
                           false total = false).
           { destruct Hm as [Hm|[->|(t & -> & Hm)]].
             - apply Qeq_bool_iff in Hm. rewrite Hm. reflexivity.
             - apply andb_false_r.
             - simpl. apply Qltb_ge in Hm. rewrite Hm. apply andb_false_r. }
           rewrite Hno. reflexivity.
  - apply discount_check_messages_distinct.
Qed.

Lemma unusable_code_grants_nothing_witness :
  (exists s' r,
      checkout no_faults 1000 "u1" "fixed10" shop = (s', Success r) /\
      discount r = 0%Q /\ (finalTotal r == Qmax (total r) 0)%Q) /\
  discount_check 1000 " fixed10 " (Some "u1") (Some 60%Q) shop
  = Failure 400 msg_inactive /\
  discount_check 1000 "big5" (Some "u1") (Some 60%Q) shop
  = Failure 400 (msg_min_spend 100) /\
  discount_check 1000 "big5" (Some "u2") (Some 200%Q) shop
  = Failure 400 msg_already_used.
Proof.
  destruct unusable_code_grants_nothing as (Hcheckout & Hcheck & _).
  split; [|split; [|split]].
  - destruct (checkout no_faults 1000 "u1" "fixed10" shop)
      as [s' [r|st msg]] eqn:E; [|vm_compute in E; discriminate].
    exists s', r. split; [reflexivity|].
    apply (Hcheckout no_faults 1000 "u1" "fixed10" shop s' r E).
    right. exists "d1", fixed10. split; [reflexivity|]. left. reflexivity.
  - destruct (Hcheck 1000 " fixed10 " (Some "u1") (Some 60%Q) shop)
      as [_ H].
    destruct (H "d1" fixed10) as [Hin _]; [reflexivity|].
    apply Hin. reflexivity.
  - destruct (Hcheck 1000 "big5" (Some "u1") (Some 60%Q) shop) as [_ H].
    destruct (H "d3" big5) as (_ & _ & He); [reflexivity|].
    destruct (He 2000) as (_ & Hmin & _); [reflexivity..|].
    apply (Hmin 60%Q); [lia | reflexivity | discriminate | reflexivity].
  - destruct (Hcheck 1000 "big5" (Some "u2") (Some 200%Q) shop) as [_ H].
    destruct (H "d3" big5) as (_ & _ & He); [reflexivity|].
    destruct (He 2000) as (_ & _ & Hused); [reflexivity..|].
    apply (Hused "u2"); [lia | | reflexivity | ].
    + right. right. exists 200%Q. split; [reflexivity | discriminate].
    + apply list_elem_of_here.
Defined.

(** C4.  The checkout grants codes that [validate-promo] and
    [GET /api/discounts/check/:code] turn down, each with its own reason:
    [BIG5] on a subtotal of 60, below its minimum spend of 100; [BIG5] to
    [u2], who is in its [usedBy]; and [FIXED10], used once out of one, after
    it has been switched on again.  In each case the checkout succeeds with
    the full discount instead of 0. *)
Theorem checkout_grants_ineligible_codes :
  (exists s' r,
      checkout no_faults 1000 "u1" "BIG5" shop = (s', Success r) /\
      lookup_promo "BIG5" shop = Some ("d3", big5) /\
      (total r < Discount.minSpend big5)%Q /\
      (discount r == 5)%Q /\ ~ (discount r == 0)%Q /\
      validate_promo 1000 "u1" "BIG5" 60 shop
      = PromoInvalid (Interpolated "ขั้นต่ำสำหรับโค้ดนี้คือ " 100 "") /\
      discount_check 1000 "BIG5" (Some "u1") (Some 60%Q) shop
      = Failure 400 (msg_min_spend 100)) /\
  (exists s' r,
      checkout no_faults 1000 "u2" "BIG5" shop = (s', Success r) /\
      "u2" ∈ Discount.usedBy big5 /\
      (discount r == 5)%Q /\ ~ (discount r == 0)%Q /\
      validate_promo 1000 "u2" "BIG5" 200 shop
      = PromoInvalid "คุณเคยใช้โค้ดนี้แล้ว" /\
      discount_check 1000 "BIG5" (Some "u2") (Some 200%Q) shop
      = Failure 400 msg_already_used) /\
  (exists s' r,
      discount_toggle "d1" (Some true) shop = (shop_reopened, Success ()) /\
      lookup_promo "FIXED10" shop_reopened = Some ("d1", fixed10_on) /\
      Discount.usageLimit fixed10_on <= Discount.usedCount fixed10_on /\
      checkout no_faults 1000 "u1" "FIXED10" shop_reopened
      = (s', Success r) /\
      (discount r == 10)%Q /\ ~ (discount r == 0)%Q /\
      validate_promo 1000 "u1" "FIXED10" 60 shop_reopened
      = PromoInvalid "โค้ดนี้ใช้ครบจำนวนครั้งแล้ว" /\
      discount_check 1000 "FIXED10" (Some "u1") (Some 60%Q) shop_reopened
      = Failure 400 msg_used_up).
Proof.
  split; [|split].
  - destruct (checkout no_faults 1000 "u1" "BIG5" shop) as [s' [r|st msg]]
      eqn:E; vm_compute in E; [|discriminate].
    injection E as _ <-. exists s'. eexists. split; [reflexivity|].
    repeat split; try reflexivity; discriminate.
  - destruct (checkout no_faults 1000 "u2" "BIG5" shop) as [s' [r|st msg]]
      eqn:E; vm_compute in E; [|discriminate].
    injection E as _ <-. exists s'. eexists. split; [reflexivity|].
    split; [apply list_elem_of_here|].
    repeat split; try reflexivity; discriminate.
  - destruct (checkout no_faults 1000 "u1" "FIXED10" shop_reopened)
      as [s' [r|st msg]] eqn:E; vm_compute in E; [|discriminate].
    injection E as _ <-. exists s'. eexists. split; [reflexivity|].
    split; [reflexivity|]. split; [vm_compute; discriminate|].
    split; [reflexivity|].
    repeat split; try reflexivity; discriminate.
Qed.

(** ** C10: the usage write after a checkout *)

Lemma lookup_promo_Some (promoCode ref : string) (d : Discount.t)
    (s : store) :
  lookup_promo promoCode s = Some (ref, d) ->
  truthy promoCode = true /\ discounts s !! ref = Some d /\
  Discount.code d = toUpperCase promoCode.
Proof.
  unfold lookup_promo. destruct (truthy promoCode); [|discriminate].
  intros H. apply find_discount_lookup in H. tauto.
Qed.

Lemma stillActive_limit (d : Discount.t) :
  0 <= Discount.usedCount d ->
  stillActive d = (Discount.usedCount d + 1 <? Discount.usageLimit d).
Proof.
  intros H. unfold stillActive, newUsedCount. rewrite js_or_0.
  unfold js_or. destruct (Z.eqb_spec (Discount.usageLimit d) 0) as [->|];
    [|reflexivity].
  destruct (Z.ltb_spec (Discount.usedCount d + 1) 1),
           (Z.ltb_spec (Discount.usedCount d + 1) 0); reflexivity || lia.
Qed.

(** C10.  After a successful checkout whose [promoCode] matches a stored
    discount, and unless the store refuses the write, the document has
    [usedCount] one higher, [usedBy] united with the user, and [isActive]
    set to (new [usedCount] < [usageLimit]), the limit being
    [usageLimit || 1]; this also when the code was inactive or expired and
    granted nothing. *)
Theorem checkout_usage_update_unconditional :
  forall f now userId promoCode s s' r ref d,
    checkout f now userId promoCode s = (s', Success r) ->
    lookup_promo promoCode s = Some (ref, d) ->
    usage_update_fails f = false ->
    (applies now d = false -> discount r = 0%Q) /\
    exists d',
      discounts s' !! ref = Some d' /\
      Discount.usedCount d' = Discount.usedCount d + 1 /\
      Discount.usedBy d' = arrayUnion (Discount.usedBy d) userId /\
      (forall u, u ∈ Discount.usedBy d' <->
                 u ∈ Discount.usedBy d \/ u = userId) /\
      Discount.isActive d'
      = (Discount.usedCount d' <? js_or (Discount.usageLimit d) 1) /\
      (0 <= Discount.usedCount d ->
       Discount.isActive d'
       = (Discount.usedCount d' <? Discount.usageLimit d)).
Proof.
  intros f now userId promoCode s s' r ref d H Hf Hok.
  apply checkout_Success in H as (user & s1 & _ & _ & Htx & -> & ->).
  apply checkout_tx_frame in Htx as (_ & _ & Hds).
  apply lookup_promo_Some in Hf as Hd. destruct Hd as (_ & Hd & _).
  rewrite Hf. simpl. split.
  { intros Ha. unfold promo_discount. rewrite Ha. reflexivity. }
  rewrite Hok. unfold usage_update, update_discount. rewrite Hds, Hd.
  simpl. eexists. split; [apply lookup_insert_eq|]. simpl.
  unfold newUsedCount. rewrite js_or_0.
  split; [reflexivity|]. split; [reflexivity|].
  split; [intros u; apply arrayUnion_elem|].
  split.
  - unfold stillActive, newUsedCount. rewrite js_or_0. reflexivity.
  - intros Hnn. apply stillActive_limit. exact Hnn.
Qed.

Lemma checkout_usage_update_unconditional_witness :
  exists s' r d',
    checkout no_faults 1000 "u1" "fixed10" shop = (s', Success r) /\
    discount r = 0%Q /\
    discounts s' !! "d1" = Some d' /\
    Discount.usedCount d' = 1 + 1 /\
    Discount.usedBy d' = ["u2"; "u1"] /\
    Discount.isActive d' = false.
Proof.
  destruct (checkout no_faults 1000 "u1" "fixed10" shop)
    as [s' [r|st msg]] eqn:E; [|vm_compute in E; discriminate].
  destruct (checkout_usage_update_unconditional no_faults 1000 "u1"
              "fixed10" shop s' r "d1" fixed10 E)
    as (H0 & d' & Hd & Hc & Hby & _ & Hact & _);
    [reflexivity | reflexivity |].
  exists s', r, d'. split; [reflexivity|].
  split; [apply H0; reflexivity|].
  split; [exact Hd|]. split; [exact Hc|]. split; [exact Hby|].
  rewrite Hact, Hc. reflexivity.
Defined.

(** ** The settlement loop *)

Lemma gameMap_lookup_Some (items : list cart_item) (s : store)
    (k : string) (row : game_row) :
  gameMap items s !! k = Some row ->
  exists g, games s !! k = Some g /\ row = select_row g.
Proof.
  unfold gameMap, gamesData. induction items as [|item rest IH]; simpl.
  - rewrite lookup_empty. discriminate.
  - destruct (games s !! gameId item) as [g|] eqn:Eg; simpl; [|exact IH].
    destruct (decide (gameId item = k)) as [<-|Hne].
    + rewrite lookup_insert_eq. intros [= <-]. eauto.
    + rewrite lookup_insert_ne by done. exact IH.
Qed.

Lemma gameMap_lookup_elem (items : list cart_item) (s : store)
    (item : cart_item) (g : Game.t) :
  item ∈ items -> games s !! gameId item = Some g ->
  gameMap items s !! gameId item = Some (select_row g).
Proof.
  unfold gameMap, gamesData. intros Hin Hg.
  induction items as [|item0 rest IH]; [by apply elem_of_nil in Hin|].
  simpl. destruct (decide (gameId item0 = gameId item)) as [Heq|Hne].
  - rewrite Heq, Hg. simpl. apply lookup_insert_eq.
  - apply elem_of_cons in Hin as [->|Hin]; [done|].
    destruct (games s !! gameId item0); simpl; [|auto].
    rewrite lookup_insert_ne by done. auto.
Qed.


Lemma checkout_tx_writes (userId promoCode : string) (user : User.t)
    (ft : Q) (items : list cart_item) (gm : gmap string game_row)
    (docs : list (string * Z)) (s s' : store) :
  checkout_tx userId promoCode user ft items gm docs s = Some s' ->
  exists s2,
    settle_lines userId promoCode gm items
      (set_users (<[userId := {| User.wallet :=
                                   (js_orQ (User.wallet user) 0 - ft)%Q |}]>
                    (users s)) s) = Some s2 /\
    orders s' = orders s2 /\ library s' = library s2 /\
    games s' = games s2.
Proof.
  unfold checkout_tx. intros H.
  destruct (update_user _ _ s) as [s1|] eqn:E1; [|discriminate].
  simpl in H.
  destruct (settle_lines _ _ _ _ s1) as [s2|] eqn:E2; [|discriminate].
  simpl in H. injection H as <-.
  apply update_user_Some in E1 as (u & Hu & ->). eauto.
Qed.

Lemma usage_step_frame (f : faults) (userId : string)
    (found : option (string * Discount.t)) (s : store) :
  let s' := (usage_step f userId found s).1 in
  orders s' = orders s /\ library s' = library s /\ games s' = games s /\
  cart s' = cart s.
Proof.
  unfold usage_step. destruct found as [[ref d]|]; [|done].
  destruct (usage_update_fails f); [done|].
  destruct (usage_update _ _ _ _) as [s'|] eqn:E; [|done].
  apply update_discount_Some in E as (d0 & _ & ->). done.
Qed.

Lemma checkout_catch_frame (f : faults) (userId : string) (used : bool)
    (found : option (string * Discount.t)) (s : store) :
  let s' := checkout_catch f userId used found s in
  users s' = users s /\ orders s' = orders s /\ library s' = library s /\
  games s' = games s /\ cart s' = cart s.
Proof.
  unfold checkout_catch. destruct found as [[ref d]|]; [|done].
  destruct (used && negb (rollback_fails f)); [|done].
  destruct (rollback_update _ _ _ _) as [s'|] eqn:E; [|done].
  apply update_discount_Some in E as (d0 & _ & ->). done.
Qed.




Lemma filteredCart_nil_docs (userId : string) (s : store) :
  cart_docs userId s = [] -> filteredCart userId s = [].
Proof. unfold filteredCart. intros ->. reflexivity. Qed.

Lemma filteredCart_elem (userId : string) (s : store) (item : cart_item) :
  item ∈ filteredCart userId s <->
  ((userId, gameId item) ∉ library s) /\
  exists q, cart_quantity userId (gameId item) s = Some q /\
            quantity item = js_or q 1.
Proof.
  unfold filteredCart, cartItems, cart_docs, cart_quantity.
  rewrite list_elem_of_filter, list_elem_of_fmap. split.
  - intros [Hl ([g q] & -> & Hin)]. split; [done|].
    apply elem_of_map_to_list in Hin. simpl. eauto.
  - intros [Hl (q & Hq & Hqty)]. split; [done|].
    exists (gameId item, q). split.
    + destruct item as [g q']. simpl in *. congruence.
    + by apply elem_of_map_to_list.
Qed.


(** ** C8: what the entry points check about a game *)




(** ** C5: values read before the transaction *)

(** The sequential handler is the commit on the store that was read. *)
Lemma checkout_commit_seen (f : faults) (now : Z) (userId promoCode : string)
    (s s' : store) (r : checkout_receipt) :
  checkout f now userId promoCode s = (s', Success r) ->
  exists s1, checkout_commit now userId promoCode s s = Some s1 /\
             users s' = users s1 /\ games s' = games s1 /\
             orders s' = orders s1.
Proof.
  intros H. apply checkout_Success in H as (user & s1 & Hu & _ & Htx & -> & _).
  exists s1. unfold checkout_commit. rewrite Hu. simpl.
  split; [exact Htx|]. rewrite usage_step_users.
  pose proof (usage_step_frame f userId (lookup_promo promoCode s) s1)
    as (-> & _ & -> & _). auto.
Qed.

(** C5.  The transactions write values computed from what was read before
    they began, so concurrent settlements lose updates.  Two direct buys by
    [u2] (60 and 30 from a wallet of 500) that both read first leave the
    wallet at 470 with both orders recorded; two direct buys of [gB] (sold 4
    times) leave [totalSold] at 5 with both orders recorded; a direct buy
    (30) and a checkout (60) by [u1] from a wallet of 100 leave 40, not 10;
    a direct buy and a checkout of [gA] leave its [totalSold] at 1 for two
    completed orders. *)
Theorem concurrent_settlements_lose_updates :
  (exists s',
      buy_race "u2" "gA" "u2" "gB" shop = Some s' /\
      wallet_of "u2" shop = Some 500%Q /\
      (Order.price <$> orders s') = [60%Q; 30%Q] /\
      wallet_of "u2" s' = Some (500 - 30)%Q) /\
  (exists s',
      buy_race "u1" "gB" "u2" "gB" shop = Some s' /\
      sold "gB" shop = Some 4 /\
      completed_orders "gB" s' = completed_orders "gB" shop + 2 /\
      sold "gB" s' = Some (4 + 1)) /\
  (exists s',
      buy_checkout_race "u1" "gB" 1000 "u1" "" shop = Some s' /\
      wallet_of "u1" shop = Some 100%Q /\
      (Order.price <$> orders s') = [30%Q; 60%Q] /\
      wallet_of "u1" s' = Some (100 - 60)%Q) /\
  (exists s',
      buy_checkout_race "u2" "gA" 1000 "u1" "" shop = Some s' /\
      sold "gA" shop = Some 0 /\
      completed_orders "gA" s' = 2 /\
      sold "gA" s' = Some 1).
Proof.
  repeat split.
  - destruct (buy_race "u2" "gA" "u2" "gB" shop) as [s'|] eqn:E;
      vm_compute in E; [|discriminate].
    injection E as <-. eexists. split; [reflexivity|].
    repeat split; vm_compute; reflexivity.
  - destruct (buy_race "u1" "gB" "u2" "gB" shop) as [s'|] eqn:E;
      vm_compute in E; [|discriminate].
    injection E as <-. eexists. split; [reflexivity|].
    repeat split; vm_compute; reflexivity.
  - destruct (buy_checkout_race "u1" "gB" 1000 "u1" "" shop) as [s'|] eqn:E;
      vm_compute in E; [|discriminate].
    injection E as <-. eexists. split; [reflexivity|].
    repeat split; vm_compute; reflexivity.
  - destruct (buy_checkout_race "u2" "gA" 1000 "u1" "" shop) as [s'|] eqn:E;
      vm_compute in E; [|discriminate].
    injection E as <-. eexists. split; [reflexivity|].
    repeat split; vm_compute; reflexivity.
Qed.

(** ** C6: the usage count and the usage limit *)

(** The usage write keeps [usedBy] free of duplicates. *)
Lemma usage_update_NoDup (userId ref : string) (d : Discount.t)
    (s s' : store) :
  usage_update userId ref d s = Some s' ->
  exists cur d',
    discounts s !! ref = Some cur /\ discounts s' !! ref = Some d' /\
    (NoDup (Discount.usedBy cur) -> NoDup (Discount.usedBy d')).
Proof.
  intros H. apply update_discount_Some in H as (cur & Hcur & ->).
  eexists cur, _. split; [exact Hcur|]. simpl.
  split; [apply lookup_insert_eq|]. simpl. apply arrayUnion_NoDup.
Qed.

(** C6.  Serialized requests do raise [usedCount] above [usageLimit]:
    [FIXED10] has been used once out of one and is switched off; a checkout
    by [u1] that names it gets no discount and still leaves [usedCount] at
    2, and so does [POST /api/orders] with [redeemCode] [FIXED10]. *)
Theorem usedCount_exceeds_usageLimit :
  discounts shop !! "d1" = Some fixed10 /\
  Discount.usedCount fixed10 <= Discount.usageLimit fixed10 /\
  (exists s' r d',
      checkout no_faults 1000 "u1" "fixed10" shop = (s', Success r) /\
      discount r = 0%Q /\
      discounts s' !! "d1" = Some d' /\
      Discount.usageLimit d' = 1 /\ Discount.usedCount d' = 2 /\
      Discount.usageLimit d' < Discount.usedCount d') /\
  (exists s' d',
      post_orders no_faults
        {| req_userId := "u1"; req_gameId := "gA"; req_gameName := "Alpha";
           req_price := 60; req_quantity := 1;
           req_redeemCode := "FIXED10" |} shop = (s', Success ()) /\
      discounts s' !! "d1" = Some d' /\
      Discount.usageLimit d' = 1 /\ Discount.usedCount d' = 2 /\
      Discount.usageLimit d' < Discount.usedCount d').
Proof.
  split; [reflexivity|]. split; [vm_compute; discriminate|]. split.
  - destruct (checkout no_faults 1000 "u1" "fixed10" shop)
      as [s' [r|st msg]] eqn:E; vm_compute in E; [|discriminate].
    injection E as <- <-. eexists _, _, _. split; [reflexivity|].
    split; [reflexivity|]. split; [vm_compute; reflexivity|].
    repeat split.
  - destruct (post_orders no_faults _ shop) as [s' [[]|st msg]] eqn:E;
      vm_compute in E; [|discriminate].
    injection E as <-. eexists _, _. split; [reflexivity|].
    split; [vm_compute; reflexivity|]. repeat split.
Qed.

(** ** C7: orders and the sold counter *)

(** C7.  [POST /api/orders] records a completed order and leaves the game's
    [totalSold] alone: from a store where [gA] has no order and was sold 0
    times it leaves one completed order for [gA] and [totalSold] 0. *)
Theorem post_orders_leaves_totalSold :
  completed_orders "gA" shop = 0 /\ sold "gA" shop = Some 0 /\
  exists s',
    post_orders no_faults
      {| req_userId := "u1"; req_gameId := "gA"; req_gameName := "Alpha";
         req_price := 60; req_quantity := 1; req_redeemCode := "" |} shop
    = (s', Success ()) /\
    (Order.status <$> orders s') = ["completed"] /\
    completed_orders "gA" s' = 1 /\
    sold "gA" s' = Some 0 /\
    ~ (completed_orders "gA" s' <= default 0 (sold "gA" s')).
Proof.
  split; [reflexivity|]. split; [reflexivity|].
  destruct (post_orders no_faults _ shop) as [s' [[]|st msg]] eqn:E;
    vm_compute in E; [|discriminate].
  injection E as <-. eexists. split; [reflexivity|].
  repeat split; try (vm_compute; reflexivity).
  vm_compute. intros H. apply H. reflexivity.
Qed.

(** ** C9: the rollback of the discount usage *)

(** The rollback count comes from the copy read before the usage write: for
    a code that had been used, it is two below what that write stored. *)
Lemma rollbackCount_stale (d : Discount.t) :
  1 <= Discount.usedCount d -> rollbackCount d = newUsedCount d - 2.
Proof.
  intros H. unfold rollbackCount, newUsedCount, js_or.
  destruct (Z.eqb_spec (Discount.usedCount d) 0); lia.
Qed.

(** The rollback write switches the code on, removes the user and touches
    the discount document only. *)
Lemma rollback_update_Some (userId ref : string) (d : Discount.t)
    (s s' : store) :
  rollback_update userId ref d s = Some s' ->
  exists d',
    discounts s' !! ref = Some d' /\
    Discount.usedCount d' = rollbackCount d /\ 0 <= Discount.usedCount d' /\
    (userId ∉ Discount.usedBy d') /\ Discount.isActive d' = true /\
    users s' = users s /\ orders s' = orders s /\ library s' = library s /\
    games s' = games s.
Proof.
  intros H. apply update_discount_Some in H as (cur & Hcur & ->).
  eexists. split; [apply lookup_insert_eq|]. simpl.
  split; [reflexivity|]. split; [unfold rollbackCount; lia|].
  split; [apply arrayRemove_not_elem|]. auto.
Qed.

(** C9.  [BIG5] has been used once.  A checkout by [u1] with it stores
    [usedCount] 2; when the request fails after that write, the rollback
    stores [usedCount] 0, which is neither 2 - 1 nor the count of before.
    The rollback does remove [u1] from [usedBy], switches the code on and
    leaves the wallet, the orders and the library as settled. *)
Theorem rollback_decrements_twice :
  exists s_ok r s_err d_ok d_err,
    discounts shop !! "d3" = Some big5 /\ Discount.usedCount big5 = 1 /\
    checkout no_faults 1000 "u1" "big5" shop = (s_ok, Success r) /\
    discounts s_ok !! "d3" = Some d_ok /\ Discount.usedCount d_ok = 2 /\
    checkout respond_fault 1000 "u1" "big5" shop
    = (s_err, Failure 500 "Server Error") /\
    discounts s_err !! "d3" = Some d_err /\
    Discount.usedCount d_err = 0 /\
    Discount.usedCount d_err <> Z.max (Discount.usedCount d_ok - 1) 0 /\
    Discount.usedBy d_err = ["u2"] /\ Discount.isActive d_err = true /\
    users s_err = users s_ok /\ orders s_err = orders s_ok /\
    library s_err = library s_ok.
Proof.
  destruct (checkout no_faults 1000 "u1" "big5" shop) as [s_ok [r|st msg]]
    eqn:E1; vm_compute in E1; [|discriminate].
  destruct (checkout respond_fault 1000 "u1" "big5" shop)
    as [s_err [r'|st msg]] eqn:E2; vm_compute in E2; [discriminate|].
  injection E1 as <- <-. injection E2 as <- <- <-.
  eexists _, _, _, _, _.
  split; [reflexivity|]. split; [reflexivity|]. split; [reflexivity|].
  split; [vm_compute; reflexivity|]. split; [reflexivity|].
  split; [reflexivity|]. split; [vm_compute; reflexivity|].
  repeat split. discriminate.
Qed.

(** * Further properties of the code *)

(** ** The in-memory cache *)

Lemma prefix_true (p k : string) :
  String.prefix p k = true <-> exists r, k = p +:+ r.
Proof.
  revert k. induction p as [|a p IH]; intros k; simpl.
  - destruct k; split; eauto.
  - destruct k as [|b k]; simpl.
    + split; [discriminate | intros [r Hr]; discriminate].
    + destruct (ascii_dec a b) as [->|Hne].
      * rewrite IH. split; intros [r Hr]; exists r.
        -- rewrite Hr. reflexivity.
        -- change (String b k = String b (p +:+ r)) in Hr. congruence.
      * split; [discriminate|]. intros [r Hr].
        change (String b k = String a (p +:+ r)) in Hr. congruence.
Qed.

(** X1.  A value stored by [setCache] is what [getCache] returns under the
    same key up to and including the instant of expiry, without changing
    the cache; after that instant [getCache] returns [null] and the entry is
    gone.  Other keys answer as before the [setCache]. *)
Theorem cache_set_then_get :
  forall (A : Type) (now now' : Z) (key : string) (d : A) (ttl : option Z)
         (c : gmap string (Cache.entry A)),
    let c1 := Cache.setCache now key d ttl c in
    (now' <= now + default 30000 ttl ->
     Cache.getCache now' key c1 = (c1, Some d)) /\
    (now + default 30000 ttl < now' ->
     Cache.getCache now' key c1 = (delete key c, None)) /\
    (forall k, k <> key ->
       (Cache.getCache now' k c1).2 = (Cache.getCache now' k c).2).
Proof.
  intros A now now' key d ttl c c1. subst c1.
  unfold Cache.getCache, Cache.setCache. split; [|split].
  - intros H. rewrite lookup_insert_eq. simpl.
    apply Z.ltb_ge in H. rewrite H. reflexivity.
  - intros H. rewrite lookup_insert_eq. simpl.
    apply Z.ltb_lt in H. rewrite H. rewrite delete_insert_eq. reflexivity.
  - intros k Hk. rewrite lookup_insert_ne by done.
    destruct (c !! k) as [e|]; [|reflexivity].
    destruct (Cache.expire e <? now'); reflexivity.
Qed.

Lemma cache_set_then_get_witness :
  Cache.getCache 30100 "categories"
    (Cache.setCache 100 "categories" 7 None ∅)
  = (Cache.setCache 100 "categories" 7 None ∅, Some 7) /\
  Cache.getCache 30101 "categories"
    (Cache.setCache 100 "categories" 7 None ∅)
  = (delete "categories" ∅, None).
Proof.
  destruct (cache_set_then_get Z 100 30100 "categories" 7 None ∅)
    as (H1 & _ & _).
  destruct (cache_set_then_get Z 100 30101 "categories" 7 None ∅)
    as (_ & H2 & _).
  split; [apply H1 | apply H2]; simpl; lia.
Defined.

(** X2.  [getCache] never returns an entry that is past its expiry, returns
    the stored data without changing the cache, and when it answers [null]
    the key is absent afterwards while every other key is as before. *)
Theorem cache_get_sound :
  forall (A : Type) (now : Z) (key : string)
         (c c' : gmap string (Cache.entry A)) (r : option A),
    Cache.getCache now key c = (c', r) ->
    (forall k, k <> key -> c' !! k = c !! k) /\
    match r with
    | Some d => c' = c /\
                exists e, c !! key = Some e /\ Cache.data e = d /\
                          now <= Cache.expire e
    | None => c' !! key = None
    end.
Proof.
  intros A now key c c' r. unfold Cache.getCache.
  destruct (c !! key) as [e|] eqn:E.
  - destruct (Z.ltb_spec (Cache.expire e) now); intros [= <- <-].
    + split; [intros k Hk; by apply lookup_delete_ne|].
      apply lookup_delete_eq.
    + split; [done|]. split; [done|]. eauto.
  - intros [= <- <-]. auto.
Qed.

Lemma cache_get_sound_witness :
  (Cache.getCache 50 "a" (Cache.setCache 0 "a" 1 (Some 10) ∅)).2 = None /\
  (Cache.getCache 50 "a" (Cache.setCache 0 "a" 1 (Some 10) ∅)).1 !! "a"
  = (None : option (Cache.entry Z)).
Proof.
  destruct (Cache.getCache 50 "a" (Cache.setCache 0 "a" 1 (Some 10) ∅))
    as [c' r] eqn:E.
  destruct (cache_get_sound Z 50 "a" _ c' r E) as [_ H].
  assert (Hr : r = None) by (vm_compute in E; congruence).
  subst r. split; [reflexivity | exact H].
Defined.

(** X3.  [clearCacheByPrefix(prefix)] removes exactly the keys that start
    with [prefix] and leaves every other entry as it was.  With the prefix
    ["games:"] used after each catalogue change, every listing key of
    [GET /api/games] is removed, and the keys of the categories, login and
    registration caches stay. *)
Theorem cache_clear_prefix :
  forall (A : Type) (prefix : string) (c : gmap string (Cache.entry A)),
    (forall r, Cache.clearCacheByPrefix prefix c !! (prefix +:+ r) = None) /\
    (forall k, (forall r, k <> prefix +:+ r) ->
       Cache.clearCacheByPrefix prefix c !! k = c !! k) /\
    (forall categoryId search,
       Cache.clearCacheByPrefix "games:" c !! games_key categoryId search
       = None) /\
    (forall x k, k ∈ [categories_key; login_key x; user_key x; userId_key x] ->
       Cache.clearCacheByPrefix "games:" c !! k = c !! k).
Proof.
  intros A prefix c.
  assert (Hin : forall p r,
             Cache.clearCacheByPrefix p c !! (p +:+ r) = None).
  { intros p r. unfold Cache.clearCacheByPrefix.
    apply map_lookup_filter_None. right. intros e _. simpl.
    assert (String.prefix p (p +:+ r) = true) as ->
      by (apply prefix_true; eauto).
    discriminate. }
  assert (Hout : forall p k, String.prefix p k = false ->
             Cache.clearCacheByPrefix p c !! k = c !! k).
  { intros p k Hk. unfold Cache.clearCacheByPrefix.
    destruct (c !! k) as [e|] eqn:E.
    - apply map_lookup_filter_Some. auto.
    - apply map_lookup_filter_None. auto. }
  split; [apply Hin|]. split.
  - intros k Hk. apply Hout.
    destruct (String.prefix prefix k) eqn:E; [|reflexivity].
    apply prefix_true in E as [r ->]. by destruct (Hk r).
  - split.
    + intros categoryId search. unfold games_key.
      apply (Hin "games:").
    + intros x k Hk. apply Hout.
      repeat (apply elem_of_cons in Hk as [->|Hk]); try reflexivity.
      by apply elem_of_nil in Hk.
Qed.

Lemma cache_clear_prefix_witness :
  let c : gmap string (Cache.entry Z) :=
    Cache.setCache 0 (games_key "" "Zelda") 1 None
      (Cache.setCache 0 categories_key 2 (Some 60000) ∅) in
  Cache.clearCacheByPrefix "games:" c !! games_key "" "Zelda" = None /\
  Cache.clearCacheByPrefix "games:" c !! categories_key = c !! categories_key.
Proof.
  intros c.
  destruct (cache_clear_prefix Z "games:" c) as (_ & _ & Hgames & Hkeep).
  split; [apply Hgames|].
  apply (Hkeep ""). apply list_elem_of_here.
Defined.

(** ** The cart endpoints *)

Lemma cart_quantity_set (userId gid u g : string) (q : Z) (s : store) :
  cart_quantity u g
    (set_cart (<[userId := <[gid := q]> (default ∅ (cart s !! userId))]>
                 (cart s)) s)
  = if decide (u = userId /\ g = gid) then Some q else cart_quantity u g s.
Proof.
  unfold cart_quantity. simpl.
  destruct (decide (u = userId)) as [->|Hu].
  - rewrite lookup_insert_eq. simpl.
    destruct (decide (g = gid)) as [->|Hg].
    + rewrite lookup_insert_eq. rewrite decide_True by done. reflexivity.
    + rewrite lookup_insert_ne by done. rewrite decide_False by tauto.
      reflexivity.
  - rewrite lookup_insert_ne by done. rewrite decide_False by tauto.
    reflexivity.
Qed.

Lemma cart_add_lookup (userId gid : string) (qty : Z) (s : store)
    (u g : string) :
  truthy gid = true ->
  cart_quantity u g (cart_add userId gid qty s).1
  = if decide (u = userId /\ g = gid)
    then Some (default 0 (cart_quantity userId gid s) + js_or qty 1)
    else cart_quantity u g s.
Proof.
  intros Hg. unfold cart_add. rewrite Hg. simpl.
  destruct (default ∅ (cart s !! userId) !! gid) as [q|] eqn:E; simpl;
    rewrite cart_quantity_set; destruct (decide _); try reflexivity;
    unfold cart_quantity; rewrite E; simpl; f_equal; lia.
Qed.

(** X4.  [POST /api/users/cart/add] with a game identity always succeeds:
    it adds [quantity || 1] to the quantity stored for that game (starting
    from nothing when the game is not in the cart), leaves every other cart
    entry of every user as it was, and touches no other collection; it
    looks neither at the catalogue nor at the library. *)
Theorem cart_add_accumulates :
  forall userId gid qty s,
    truthy gid = true ->
    exists s',
      cart_add userId gid qty s = (s', Success ()) /\
      cart_quantity userId gid s'
      = Some (default 0 (cart_quantity userId gid s) + js_or qty 1) /\
      (forall u g, (u, g) <> (userId, gid) ->
         cart_quantity u g s' = cart_quantity u g s) /\
      users s' = users s /\ games s' = games s /\
      discounts s' = discounts s /\ orders s' = orders s /\
      library s' = library s.
Proof.
  intros userId gid qty s Hg. unfold cart_add. rewrite Hg. simpl.
  destruct (default ∅ (cart s !! userId) !! gid) as [q|] eqn:E;
    eexists; (split; [reflexivity|]);
    (split; [rewrite cart_quantity_set, decide_True by done;
             unfold cart_quantity; rewrite E; simpl; f_equal; lia|]);
    (split; [|done]);
    intros u g Hne; rewrite cart_quantity_set;
    apply decide_False; intros [-> ->]; done.
Qed.

Lemma cart_add_accumulates_witness :
  exists s1 s2,
    cart_add "u1" "gB" 0 shop = (s1, Success ()) /\
    cart_add "u1" "gB" 3 s1 = (s2, Success ()) /\
    cart_quantity "u1" "gB" s2 = Some (1 + 3) /\
    cart_quantity "u1" "gA" s2 = Some 1.
Proof.
  destruct (cart_add_accumulates "u1" "gB" 0 shop) as (s1 & E1 & Q1 & F1 & _);
    [reflexivity|].
  destruct (cart_add_accumulates "u1" "gB" 3 s1) as (s2 & E2 & Q2 & F2 & _);
    [reflexivity|].
  exists s1, s2. split; [exact E1|]. split; [exact E2|]. split.
  - rewrite Q2, Q1. reflexivity.
  - rewrite F2, F1 by (intros [= ?]; discriminate). reflexivity.
Defined.

(** X5.  [POST /api/users/cart/remove] takes the game out of the cart
    whatever its quantity, is a no-op on a game that is not in the cart (so
    removing twice is removing once), and leaves the other entries alone;
    removing right after adding to a cart that did not hold the game gives
    back the cart of before. *)
Theorem cart_remove_after_add :
  forall userId gid s,
    truthy gid = true ->
    let s' := (cart_remove userId gid s).1 in
    (cart_remove userId gid s).2 = Success () /\
    cart_quantity userId gid s' = None /\
    (forall u g, (u, g) <> (userId, gid) ->
       cart_quantity u g s' = cart_quantity u g s) /\
    (cart_remove userId gid s').1 = s' /\
    (forall qty u g,
       cart_quantity userId gid s = None ->
       cart_quantity u g
         (cart_remove userId gid (cart_add userId gid qty s).1).1
       = cart_quantity u g s).
Proof.
  intros userId gid s Hg.
  assert (Hrm : forall s0 u g,
             cart_quantity u g (cart_remove userId gid s0).1
             = if decide (u = userId /\ g = gid) then None
               else cart_quantity u g s0).
  { intros s0 u g. unfold cart_remove, cart_quantity. rewrite Hg. simpl.
    destruct (decide (u = userId)) as [->|Hu].
    - rewrite lookup_alter_eq.
      destruct (cart s0 !! userId) as [c|]; simpl.
      + destruct (decide (g = gid)) as [->|Hne].
        * rewrite lookup_delete_eq, decide_True by done. reflexivity.
        * rewrite lookup_delete_ne by done.
          rewrite decide_False by tauto. reflexivity.
      + rewrite lookup_empty. by destruct (decide _).
    - rewrite lookup_alter_ne by done.
      rewrite decide_False by tauto. reflexivity. }
  simpl. split; [unfold cart_remove; rewrite Hg; reflexivity|].
  split; [rewrite Hrm, decide_True by done; reflexivity|].
  split.
  { intros u g Hne. rewrite Hrm. apply decide_False.
    intros [-> ->]. done. }
  split.
  { assert (Hidem : alter (delete gid) userId
                      (alter (delete gid) userId (cart s))
                    = alter (delete gid) userId (cart s)).
    { apply map_eq. intros u.
      destruct (decide (u = userId)) as [->|Hu].
      - rewrite !lookup_alter_eq.
        destruct (cart s !! userId) as [c|]; simpl; [|reflexivity].
        rewrite (delete_id (delete gid c)) by apply lookup_delete_eq.
        reflexivity.
      - rewrite !lookup_alter_ne by done. reflexivity. }
    unfold cart_remove. rewrite Hg. simpl. unfold set_cart. simpl.
    rewrite Hidem. reflexivity. }
  intros qty u g Hnone. rewrite Hrm.
  destruct (decide (u = userId /\ g = gid)) as [[-> ->]|Hne];
    [by rewrite Hnone|].
  rewrite cart_add_lookup by exact Hg. by apply decide_False.
Qed.

Lemma cart_remove_after_add_witness :
  cart_quantity "u1" "gA" (cart_remove "u1" "gA" shop).1 = None /\
  cart_quantity "u2" "gC" (cart_remove "u1" "gA" shop).1 = Some 1 /\
  cart_quantity "u1" "gB"
    (cart_remove "u1" "gB" (cart_add "u1" "gB" 2 shop).1).1 = None.
Proof.
  destruct (cart_remove_after_add "u1" "gA" shop) as (_ & H1 & H2 & _);
    [reflexivity|].
  destruct (cart_remove_after_add "u1" "gB" shop) as (_ & _ & _ & _ & H3);
    [reflexivity|].
  split; [exact H1|]. split.
  - rewrite H2 by (intros [= ?]; discriminate). reflexivity.
  - rewrite (H3 2 "u1" "gB") by reflexivity. reflexivity.
Defined.

(** X6.  [GET /api/users/cart] lists a game with a quantity exactly when
    that quantity is stored for it in the user's cart, each game once. *)
Theorem cart_list_complete :
  forall userId s,
    (forall item, item ∈ cart_list userId s <->
       cart_quantity userId (gameId item) s = Some (quantity item)) /\
    NoDup (gameId <$> cart_list userId s).
Proof.
  intros userId s. unfold cart_list, cart_quantity, cart_docs. split.
  - intros [g q]. simpl. rewrite <- elem_of_map_to_list. split.
    + intros Hin. apply list_elem_of_fmap in Hin as ([g' q'] & [= -> ->] & Hin).
      exact Hin.
    + intros Hin. apply list_elem_of_fmap. exists (g, q). auto.
  - rewrite <- list_fmap_compose.
    apply (NoDup_fst_map_to_list (default ∅ (cart s !! userId))).
Qed.

(** ** More on the checkout *)

Lemma lookup_foldr_delete (c : gmap string Z) (l : list (string * Z))
    (k : string) :
  foldr (λ d c', delete d.1 c') c l !! k
  = if decide (k ∈ l.*1) then None else c !! k.
Proof.
  induction l as [|[g q] l IH].
  - destruct (decide (k ∈ ([] : list (string * Z)).*1)) as [Hin|];
      [by apply elem_of_nil in Hin | reflexivity].
  - change (delete g (foldr (λ d c', delete d.1 c') c l) !! k
            = if decide (k ∈ g :: l.*1) then None else c !! k).
    destruct (decide (g = k)) as [->|Hne].
    + rewrite lookup_delete_eq.
      destruct (decide (k ∈ k :: l.*1)) as [|Hin]; [reflexivity|].
      destruct Hin. apply list_elem_of_here.
    + rewrite lookup_delete_ne, IH by done.
      destruct (decide (k ∈ l.*1)) as [Hin|Hin];
        destruct (decide (k ∈ g :: l.*1)) as [Hin'|Hin']; try reflexivity.
      * destruct Hin'. by apply list_elem_of_further.
      * apply elem_of_cons in Hin' as [->|H]; done.
Qed.

Lemma delete_all_docs (c : gmap string Z) :
  foldr (λ d c', delete d.1 c') c (map_to_list c) = ∅.
Proof.
  apply map_eq. intros k. rewrite lookup_foldr_delete, lookup_empty.
  destruct (decide (k ∈ (map_to_list c).*1)) as [|Hin]; [reflexivity|].
  destruct (c !! k) as [q|] eqn:E; [|reflexivity].
  destruct Hin. apply list_elem_of_fmap. exists (k, q).
  split; [reflexivity|]. by apply elem_of_map_to_list.
Qed.

Lemma NoDup_fmap_filter {A B : Type} (f : A -> B) (P : A -> Prop)
    `{!forall x, Decision (P x)} (l : list A) :
  NoDup (f <$> l) -> NoDup (f <$> filter P l).
Proof.
  induction l as [|x l IH]; simpl; [done|].
  intros [Hx Hl]%NoDup_cons. rewrite filter_cons.
  destruct (decide (P x)); [|auto].
  simpl. apply NoDup_cons. split; [|auto].
  intros Hin. apply Hx. apply list_elem_of_fmap in Hin as (y & -> & Hy).
  apply list_elem_of_filter in Hy as [_ Hy].
  apply list_elem_of_fmap. eauto.
Qed.

Lemma filteredCart_NoDup (userId : string) (s : store) :
  NoDup (gameId <$> filteredCart userId s).
Proof.
  unfold filteredCart. apply NoDup_fmap_filter.
  unfold cartItems, cart_docs. rewrite <- list_fmap_compose.
  apply (NoDup_fst_map_to_list (default ∅ (cart s !! userId))).
Qed.

Lemma settle_lines_orders (userId promoCode : string)
    (gm : gmap string game_row) (items : list cart_item) (s s' : store) :
  settle_lines userId promoCode gm items s = Some s' ->
  orders s' = orders s ++ line_orders userId promoCode gm items.
Proof.
  revert s. induction items as [|item rest IH]; intros s; simpl.
  - intros [= <-]. by rewrite app_nil_r.
  - unfold line_orders. simpl.
    destruct (gm !! gameId item) as [game|] eqn:Eg; simpl.
    + destruct (update_game _ _ _) as [s2|] eqn:E; [|discriminate]. simpl.
      intros H. apply IH in H.
      apply update_game_Some in E as (g & _ & ->). simpl in H.
      rewrite H, <- app_assoc. reflexivity.
    + apply IH.
Qed.

Lemma settle_lines_games_other (userId promoCode : string)
    (gm : gmap string game_row) (items : list cart_item) (s s' : store)
    (k : string) :
  settle_lines userId promoCode gm items s = Some s' ->
  k ∉ gameId <$> items -> games s' !! k = games s !! k.
Proof.
  revert s. induction items as [|item rest IH]; intros s; simpl.
  - by intros [= <-].
  - intros H Hk. apply not_elem_of_cons in Hk as [Hne Hk].
    destruct (gm !! gameId item) as [game|]; [|by apply IH].
    destruct (update_game _ _ _) as [s2|] eqn:E; [|discriminate]. simpl in H.
    apply IH in H; [|done].
    apply update_game_Some in E as (g & _ & ->). simpl in H.
    rewrite H. by apply lookup_insert_ne.
Qed.

Lemma settle_lines_games_line (userId promoCode : string)
    (gm : gmap string game_row) (items : list cart_item) (s s' : store)
    (item : cart_item) (row : game_row) :
  settle_lines userId promoCode gm items s = Some s' ->
  NoDup (gameId <$> items) -> item ∈ items ->
  gm !! gameId item = Some row ->
  exists cur, games s !! gameId item = Some cur /\
    games s' !! gameId item
    = Some (Game.set_totalSold (js_or (totalSold row) 0 + quantity item)
              cur).
Proof.
  revert s. induction items as [|item0 rest IH]; intros s; simpl.
  - intros _ _ Hin. by apply elem_of_nil in Hin.
  - intros H [Hx Hnd]%NoDup_cons Hin Hrow.
    apply elem_of_cons in Hin as [->|Hin].
    + rewrite Hrow in H.
      destruct (update_game _ _ _) as [s2|] eqn:E; [|discriminate].
      simpl in H.
      apply (settle_lines_games_other _ _ _ _ _ _ (gameId item0)) in H;
        [|done].
      apply update_game_Some in E as (g & Hg & ->). simpl in *.
      exists g. split; [done|]. rewrite H. apply lookup_insert_eq.
    + assert (Hne : gameId item0 <> gameId item).
      { intros Heq. apply Hx. rewrite Heq. apply list_elem_of_fmap. eauto. }
      destruct (gm !! gameId item0) as [game|]; [|by apply IH].
      destruct (update_game _ _ _) as [s2|] eqn:E; [|discriminate].
      simpl in H.
      apply IH in H as (cur & Hcur & Hs'); [|done..].
      apply update_game_Some in E as (g & _ & ->). simpl in *.
      rewrite lookup_insert_ne in Hcur by done. eauto.
Qed.

Lemma checkout_tx_cart (userId promoCode : string) (user : User.t)
    (ft : Q) (items : list cart_item) (gm : gmap string game_row)
    (docs : list (string * Z)) (s s' : store) :
  checkout_tx userId promoCode user ft items gm docs s = Some s' ->
  cart s' = alter (λ c, foldr (λ d c', delete d.1 c') c docs) userId (cart s).
Proof.
  unfold checkout_tx. intros H.
  destruct (update_user _ _ s) as [s1|] eqn:E1; [|discriminate].
  simpl in H.
  destruct (settle_lines _ _ _ _ s1) as [s2|] eqn:E2; [|discriminate].
  simpl in H. injection H as <-.
  apply update_user_Some in E1 as (u & Hu & ->).
  apply settle_lines_frame in E2 as (_ & _ & Hc). simpl in *.
  rewrite Hc. reflexivity.
Qed.

(** X7.  A successful checkout deletes every document of the user's cart,
    the lines of owned games included: the cart is empty afterwards, the
    carts of other users are as before, and a further checkout by the same
    user is answered 400 (empty cart) without any change. *)
Theorem checkout_empties_cart :
  forall f now userId promoCode s s' r,
    checkout f now userId promoCode s = (s', Success r) ->
    cart_list userId s' = [] /\
    (forall u, u <> userId -> cart s' !! u = cart s !! u) /\
    (forall f' now' promoCode',
        checkout f' now' userId promoCode' s'
        = (s', Failure 400 "ตะกร้าว่าง")).
Proof.
  intros f now userId promoCode s s' r H.
  apply checkout_Success in H as (user & s1 & _ & _ & Htx & -> & _).
  pose proof (usage_step_frame f userId (lookup_promo promoCode s) s1)
    as (_ & _ & _ & Hc).
  apply checkout_tx_cart in Htx.
  set (s2 := (usage_step f userId (lookup_promo promoCode s) s1).1) in *.
  assert (Hdocs : cart_docs userId s2 = []).
  { unfold cart_docs. rewrite Hc, Htx, lookup_alter_eq.
    unfold cart_docs. destruct (cart s !! userId) as [c|]; simpl.
    - rewrite delete_all_docs. apply map_to_list_empty.
    - apply map_to_list_empty. }
  split; [unfold cart_list; rewrite Hdocs; reflexivity|].
  split.
  - intros u Hu. rewrite Hc, Htx. by apply lookup_alter_ne.
  - intros f' now' promoCode'. unfold checkout. rewrite Hdocs.
    reflexivity.
Qed.

Lemma checkout_empties_cart_witness :
  exists s' r,
    checkout no_faults 1000 "u1" "" shop = (s', Success r) /\
    cart_list "u1" s' = [] /\
    checkout no_faults 1001 "u1" "" s' = (s', Failure 400 "ตะกร้าว่าง").
Proof.
  destruct (checkout no_faults 1000 "u1" "" shop) as [s' [r|st msg]] eqn:E;
    [|vm_compute in E; discriminate].
  destruct (checkout_empties_cart no_faults 1000 "u1" "" shop s' r E)
    as (H1 & _ & H2).
  exists s', r. split; [reflexivity|]. split; [exact H1 | apply H2].
Defined.

Lemma line_orders_NoDup (userId promoCode : string)
    (gm : gmap string game_row) (items : list cart_item) :
  NoDup (gameId <$> items) ->
  NoDup (Order.gameId <$> line_orders userId promoCode gm items).
Proof.
  unfold line_orders. induction items as [|item rest IH]; simpl;
    [intros _; apply NoDup_nil_2|].
  intros [Hx Hnd]%NoDup_cons.
  destruct (gm !! gameId item) as [row|]; simpl; [|auto].
  apply NoDup_cons. split; [|auto].
  intros Hin. apply Hx.
  apply list_elem_of_fmap in Hin as (o & Ho & Hin).
  apply list_elem_of_omap in Hin as (it & Hit & Hrow).
  destruct (gm !! gameId it); [|discriminate].
  injection Hrow as <-. simpl in Ho. rewrite Ho.
  apply list_elem_of_fmap. exists it. split; [reflexivity | exact Hit].
Qed.

(** X8.  A successful checkout appends exactly one completed order per
    line of the filtered cart whose game exists, in cart order and after
    the orders already stored; each is an order of this user for a game
    that was in the cart, was not owned and exists, no game twice, priced
    at the stored price times the quantity. *)
Theorem checkout_orders_exact :
  forall f now userId promoCode s s' r,
    checkout f now userId promoCode s = (s', Success r) ->
    let new := line_orders userId promoCode
                 (gameMap (filteredCart userId s) s)
                 (filteredCart userId s) in
    orders s' = orders s ++ new /\
    NoDup (Order.gameId <$> new) /\
    (forall o, o ∈ new ->
       Order.userId o = userId /\ Order.status o = "completed" /\
       ((userId, Order.gameId o) ∉ library s) /\
       exists q g,
         cart_quantity userId (Order.gameId o) s = Some q /\
         games s !! Order.gameId o = Some g /\
         Order.quantity o = js_or q 1 /\
         Order.price o = (Game.price g * inject_Z (js_or q 1))%Q).
Proof.
  intros f now userId promoCode s s' r H new.
  apply checkout_Success in H as (user & s1 & _ & _ & Htx & -> & _).
  pose proof (usage_step_frame f userId (lookup_promo promoCode s) s1)
    as (-> & _).
  apply checkout_tx_writes in Htx as (s2 & Hsl & -> & _).
  apply settle_lines_orders in Hsl. simpl in Hsl.
  split; [exact Hsl|]. subst new. unfold line_orders. split.
  - apply line_orders_NoDup, filteredCart_NoDup.
  - intros o Hin. apply list_elem_of_omap in Hin as (item & Hitem & Hrow).
    destruct (gameMap _ s !! gameId item) as [row|] eqn:Erow;
      [|discriminate].
    injection Hrow as <-. simpl.
    apply gameMap_lookup_Some in Erow as (g & Hg & ->).
    apply filteredCart_elem in Hitem as (Hl & q & Hq & Hqty).
    split; [done|]. split; [done|]. split; [done|].
    exists q, g. rewrite Hqty. auto.
Qed.

Lemma checkout_orders_exact_witness :
  exists s' r,
    checkout no_faults 1000 "u1" "" shop = (s', Success r) /\
    orders s' = orders shop ++
      line_orders "u1" "" (gameMap (filteredCart "u1" shop) shop)
        (filteredCart "u1" shop) /\
    length (orders s') = 1%nat.
Proof.
  destruct (checkout no_faults 1000 "u1" "" shop) as [s' [r|st msg]] eqn:E;
    [|vm_compute in E; discriminate].
  destruct (checkout_orders_exact no_faults 1000 "u1" "" shop s' r E)
    as (H1 & _).
  exists s', r. split; [reflexivity|]. split; [exact H1|].
  rewrite H1. reflexivity.
Defined.

(** X9.  After a successful checkout (requests one after the other) the
    [totalSold] of every game settled is the stored count plus the quantity
    of its line, nothing else of the game document changes, and the games
    that are not in the filtered cart are untouched. *)
Theorem checkout_totalSold_exact :
  forall f now userId promoCode s s' r,
    checkout f now userId promoCode s = (s', Success r) ->
    (forall item g,
        item ∈ filteredCart userId s ->
        games s !! gameId item = Some g ->
        games s' !! gameId item
        = Some (Game.set_totalSold (Game.totalSold g + quantity item) g)) /\
    (forall k, k ∉ gameId <$> filteredCart userId s ->
        games s' !! k = games s !! k).
Proof.
  intros f now userId promoCode s s' r H.
  apply checkout_Success in H as (user & s1 & _ & _ & Htx & -> & _).
  pose proof (usage_step_frame f userId (lookup_promo promoCode s) s1)
    as (_ & _ & -> & _).
  apply checkout_tx_writes in Htx as (s2 & Hsl & _ & _ & ->).
  split.
  - intros item g Hin Hg.
    pose proof (gameMap_lookup_elem _ s item g Hin Hg) as Hrow.
    destruct (settle_lines_games_line _ _ _ _ _ _ item _ Hsl
                (filteredCart_NoDup userId s) Hin Hrow)
      as (cur & Hcur & Hs').
    simpl in Hcur. assert (cur = g) as -> by congruence.
    rewrite Hs'. simpl. rewrite js_or_0. reflexivity.
  - intros k Hk.
    apply (settle_lines_games_other _ _ _ _ _ _ k Hsl Hk).
Qed.

Lemma checkout_totalSold_exact_witness :
  exists s' r,
    checkout no_faults 1000 "u2" "" shop = (s', Success r) /\
    sold "gC" s' = Some (0 + 1) /\ sold "gB" s' = Some 4.
Proof.
  destruct (checkout no_faults 1000 "u2" "" shop) as [s' [r|st msg]] eqn:E;
    [|vm_compute in E; discriminate].
  destruct (checkout_totalSold_exact no_faults 1000 "u2" "" shop s' r E)
    as (H1 & H2).
  exists s', r. split; [reflexivity|]. unfold sold. split.
  - assert (Hq := H1 {| gameId := "gC"; quantity := 1 |} game_c).
    simpl in Hq. rewrite Hq;
      [reflexivity | vm_compute; apply list_elem_of_here | reflexivity].
  - rewrite H2; [reflexivity|]. vm_compute.
    intros [H|H]%elem_of_cons; [discriminate | by apply elem_of_nil in H].
Defined.

(** X10.  A successful settlement never leaves the wallet negative: the
    wallet check before the transaction is against the very amount that the
    transaction takes (requests one after the other). *)
Theorem settlement_keeps_wallet_nonnegative :
  (forall f userId gid s s' r,
      buy f userId gid s = (s', Success r) ->
      exists u', users s' !! userId = Some u' /\ (0 <= User.wallet u')%Q) /\
  (forall f now userId promoCode s s' r,
      checkout f now userId promoCode s = (s', Success r) ->
      exists u', users s' !! userId = Some u' /\ (0 <= User.wallet u')%Q).
Proof.
  split.
  - intros f userId gid s s' r H.
    apply buy_Success in H as (user & game & Hr & Htx & _).
    apply buy_read_Success in Hr as (_ & _ & _ & Hle).
    apply buy_tx_Some in Htx as (Hus & _).
    eexists. split; [rewrite Hus; apply lookup_insert_eq|]. simpl. lra.
  - intros f now userId promoCode s s' r H.
    apply checkout_Success in H as (user & s1 & _ & Hw & Htx & -> & _).
    apply checkout_tx_frame in Htx as (_ & Hus & _).
    apply Qltb_ge in Hw.
    eexists. split.
    + rewrite usage_step_users, Hus. apply lookup_insert_eq.
    + simpl. lra.
Qed.

Lemma settlement_keeps_wallet_nonnegative_witness :
  exists s' r u',
    buy no_faults "u1" "gA" shop = (s', Success r) /\
    users s' !! "u1" = Some u' /\ (0 <= User.wallet u')%Q.
Proof.
  destruct settlement_keeps_wallet_nonnegative as [Hbuy _].
  destruct (buy no_faults "u1" "gA" shop) as [s' [r|st msg]] eqn:E;
    [|vm_compute in E; discriminate].
  destruct (Hbuy no_faults "u1" "gA" shop s' r E) as (u' & Hu & Hw).
  exists s', r, u'. auto.
Defined.

(** X11.  When the store aborts the transaction, a direct buy, a cart
    checkout and a top-up leave everything as it was and do not answer
    success: no partial settlement is left behind and no discount rollback
    is written. *)
Theorem aborted_transaction_changes_nothing :
  forall f, tx_aborts f = true ->
    (forall userId gid s,
        (buy f userId gid s).1 = s /\
        forall r, (buy f userId gid s).2 <> Success r) /\
    (forall now userId promoCode s,
        (checkout f now userId promoCode s).1 = s /\
        forall r, (checkout f now userId promoCode s).2 <> Success r) /\
    (forall userId amount method l,
        (topup f userId amount method l).1 = l /\
        forall w, (topup f userId amount method l).2 <> Success w).
Proof.
  intros f Hf. split; [|split].
  - intros userId gid s. unfold buy. rewrite Hf.
    destruct (buy_read userId gid s) as [[user game]|]; simpl; auto.
  - intros now userId promoCode s. unfold checkout. rewrite Hf.
    destruct (bool_decide (cart_docs userId s = [])); [simpl; auto|].
    destruct (bool_decide (filteredCart userId s = [])); [simpl; auto|].
    destruct (users s !! userId); [|simpl; auto].
    destruct (Qltb _ _); [simpl; auto|].
    unfold checkout_catch. simpl.
    destruct (lookup_promo promoCode s) as [[ref d]|]; simpl; auto.
  - intros userId amount method l. unfold topup. rewrite Hf.
    destruct (Qle_bool amount 0); simpl; auto.
Qed.

Lemma aborted_transaction_changes_nothing_witness :
  (checkout {| tx_aborts := true; usage_update_fails := false;
               respond_fails := false; rollback_fails := false |}
     1000 "u1" "save10" shop).1 = shop.
Proof.
  destruct (aborted_transaction_changes_nothing
              {| tx_aborts := true; usage_update_fails := false;
                 respond_fails := false; rollback_fails := false |})
    as (_ & H & _); [reflexivity|].
  apply H.
Defined.

(** X12.  A failing discount-usage write is not fatal: the response of the
    checkout, and its wallet, orders, library, games and cart, are those of
    the same checkout with a working write, and the discount documents are
    left exactly as they were before the request. *)
Theorem usage_write_failure_is_not_fatal :
  forall f now userId promoCode s,
    usage_update_fails f = true ->
    let f0 := {| tx_aborts := tx_aborts f; usage_update_fails := false;
                 respond_fails := respond_fails f;
                 rollback_fails := rollback_fails f |} in
    let out := checkout f now userId promoCode s in
    let out0 := checkout f0 now userId promoCode s in
    out.2 = out0.2 /\ discounts out.1 = discounts s /\
    users out.1 = users out0.1 /\ orders out.1 = orders out0.1 /\
    library out.1 = library out0.1 /\ games out.1 = games out0.1 /\
    cart out.1 = cart out0.1.
Proof.
  intros f now userId promoCode s Hf. simpl. unfold checkout. simpl.
  destruct (bool_decide (cart_docs userId s = [])); [simpl; auto 10|].
  destruct (bool_decide (filteredCart userId s = [])); [simpl; auto 10|].
  destruct (users s !! userId) as [user|]; [|simpl; auto 10].
  destruct (Qltb _ _); [simpl; auto 10|].
  destruct (tx_aborts f).
  { pose proof (checkout_catch_frame f userId false
                  (lookup_promo promoCode s) s) as Hc.
    unfold checkout_catch in *. simpl in *.
    destruct (lookup_promo promoCode s) as [[ref d]|]; simpl; auto 10. }
  destruct (checkout_tx _ _ _ _ _ _ _ _) as [s1|] eqn:Etx.
  2:{ unfold checkout_catch. simpl.
      destruct (lookup_promo promoCode s) as [[ref d]|]; simpl; auto 10. }
  apply checkout_tx_frame in Etx as (_ & _ & Hds).
  pose proof (usage_step_frame
                {| tx_aborts := false; usage_update_fails := false;
                   respond_fails := respond_fails f;
                   rollback_fails := rollback_fails f |}
                userId (lookup_promo promoCode s) s1) as (Ho & Hl & Hg & Hc).
  pose proof (usage_step_users
                {| tx_aborts := false; usage_update_fails := false;
                   respond_fails := respond_fails f;
                   rollback_fails := rollback_fails f |}
                userId (lookup_promo promoCode s) s1) as Hu.
  destruct (usage_step {| tx_aborts := false |} userId _ s1) as [s2 used]
    eqn:E2.
  assert (E1 : usage_step f userId (lookup_promo promoCode s) s1
               = (s1, false)).
  { unfold usage_step. rewrite Hf.
    destruct (lookup_promo promoCode s) as [[ref d]|]; reflexivity. }
  rewrite E1. simpl in *.
  destruct (respond_fails f); simpl.
  - pose proof (checkout_catch_frame
                  {| tx_aborts := false; usage_update_fails := false;
                     respond_fails := true;
                     rollback_fails := rollback_fails f |}
                  userId used (lookup_promo promoCode s) s2)
      as (Hu' & Ho' & Hl' & Hg' & Hc').
    simpl in *.
    assert (Hnone : checkout_catch f userId false
                      (lookup_promo promoCode s) s1 = s1).
    { unfold checkout_catch.
      destruct (lookup_promo promoCode s) as [[ref d]|]; reflexivity. }
    rewrite Hnone. split; [reflexivity|]. split; [exact Hds|].
    repeat split; congruence.
  - split; [reflexivity|]. split; [exact Hds|]. repeat split; congruence.
Qed.

Lemma usage_write_failure_is_not_fatal_witness :
  let f := {| tx_aborts := false; usage_update_fails := true;
              respond_fails := false; rollback_fails := false |} in
  (checkout f 1000 "u2" "save10" shop).2
  = (checkout no_faults 1000 "u2" "save10" shop).2 /\
  discounts (checkout f 1000 "u2" "save10" shop).1 = discounts shop.
Proof.
  intros f.
  destruct (usage_write_failure_is_not_fatal f 1000 "u2" "save10" shop)
    as (H1 & H2 & _); [reflexivity|].
  split; [exact H1 | exact H2].
Defined.

Lemma buy_progress (f : faults) (userId gid : string) (s : store)
    (user : User.t) (game : Game.t) :
  truthy gid = true -> users s !! userId = Some user ->
  games s !! gid = Some game ->
  (Game.price game <= User.wallet user)%Q ->
  tx_aborts f = false -> respond_fails f = false ->
  exists s' r,
    buy f userId gid s = (s', Success r) /\
    buy_tx userId gid user game s = Some s' /\
    buy_newWallet r = (User.wallet user - Game.price game)%Q /\
    buy_price r = Game.price game.
Proof.
  intros Hid Hu Hg Hw Htx Hre. apply Qltb_ge in Hw.
  unfold buy, buy_read. rewrite Hid, Hu, Hg. simpl. rewrite Hw, Htx.
  unfold buy_tx, update_user. rewrite Hu. simpl.
  unfold update_game. simpl. rewrite Hg. simpl. rewrite Hre.
  unfold buy_respond. simpl. rewrite lookup_insert_eq.
  eexists _, _. split; [reflexivity|]. simpl. auto.
Qed.

(** X13.  The direct buy never looks at the library: a user who already
    owns the game and has the funds is charged again and gets a second
    order and sale, while the library stays as it was. *)
Theorem buy_ignores_ownership :
  forall f userId gid s user game,
    truthy gid = true -> users s !! userId = Some user ->
    games s !! gid = Some game ->
    (Game.price game <= User.wallet user)%Q ->
    tx_aborts f = false -> respond_fails f = false ->
    (userId, gid) ∈ library s ->
    exists s' r,
      buy f userId gid s = (s', Success r) /\
      library s' = library s /\
      buy_newWallet r = (User.wallet user - Game.price game)%Q /\
      wallet_of userId s' = Some (User.wallet user - Game.price game)%Q /\
      length (orders s') = S (length (orders s)) /\
      sold gid s' = Some (Game.totalSold game + 1).
Proof.
  intros f userId gid s user game Hid Hu Hg Hw Htx Hre Hown.
  destruct (buy_progress f userId gid s user game Hid Hu Hg Hw Htx Hre)
    as (s' & r & E & Hbtx & Hnw & _).
  apply buy_tx_Some in Hbtx as (Hus & _ & _ & Ho & Hl & cur & Hcur & Hgs).
  exists s', r. split; [exact E|].
  split.
  { rewrite Hl. apply set_eq. intros p.
    rewrite elem_of_union, elem_of_singleton.
    split; [intros [->|?]; done | auto]. }
  split; [exact Hnw|].
  split; [unfold wallet_of; rewrite Hus, lookup_insert_eq; reflexivity|].
  split; [rewrite Ho, length_app; simpl; lia|].
  unfold sold. rewrite Hgs, lookup_insert_eq. simpl.
  rewrite js_or_0. reflexivity.
Qed.

Lemma buy_ignores_ownership_witness :
  exists s' r,
    buy no_faults "u1" "gB" (grant "u1" "gB" shop) = (s', Success r) /\
    library s' = library (grant "u1" "gB" shop) /\
    wallet_of "u1" s' = Some (100 - 30)%Q.
Proof.
  destruct (buy_ignores_ownership no_faults "u1" "gB" (grant "u1" "gB" shop)
              {| User.wallet := 100 |} game_b)
    as (s' & r & E & Hl & _ & Hw & _);
    [reflexivity | reflexivity | reflexivity | discriminate | reflexivity
    | reflexivity | apply elem_of_union_l, elem_of_singleton; reflexivity |].
  exists s', r. split; [exact E|]. split; [exact Hl | exact Hw].
Defined.

(** X14.  The checkout turns a request down before writing anything: with
    an empty cart (400), with a cart whose games the user all owns already
    (400), and with a purchasable line but no user document (404).  In each
    case the store is unchanged. *)
Theorem checkout_rejects_before_writing :
  forall f now userId promoCode s,
    (cart_docs userId s = [] ->
     checkout f now userId promoCode s = (s, Failure 400 "ตะกร้าว่าง")) /\
    (cart_docs userId s <> [] ->
     (forall g q, cart_quantity userId g s = Some q ->
                  (userId, g) ∈ library s) ->
     checkout f now userId promoCode s
     = (s, Failure 400 "คุณมีเกมทั้งหมดในตะกร้าแล้ว")) /\
    (filteredCart userId s <> [] -> users s !! userId = None ->
     checkout f now userId promoCode s = (s, Failure 404 "ไม่พบผู้ใช้")).
Proof.
  intros f now userId promoCode s. split; [|split].
  - intros H. unfold checkout. rewrite H. reflexivity.
  - intros Hdocs Hown. unfold checkout.
    rewrite (bool_decide_eq_false_2 _ Hdocs).
    assert (Hnil : filteredCart userId s = []).
    { destruct (filteredCart userId s) as [|item rest] eqn:E; [done|].
      assert (Hin : item ∈ filteredCart userId s)
        by (rewrite E; apply list_elem_of_here).
      apply filteredCart_elem in Hin as (Hl & q & Hq & _).
      destruct Hl. eauto. }
    rewrite Hnil. reflexivity.
  - intros Hitems Hu. unfold checkout.
    assert (Hdocs : cart_docs userId s <> []).
    { intros H. apply Hitems. by apply filteredCart_nil_docs. }
    rewrite (bool_decide_eq_false_2 _ Hdocs).
    rewrite (bool_decide_eq_false_2 _ Hitems). rewrite Hu. reflexivity.
Qed.

Lemma checkout_rejects_before_writing_witness :
  checkout no_faults 1000 "u9" "" shop = (shop, Failure 400 "ตะกร้าว่าง") /\
  checkout no_faults 1000 "u1" "" (grant "u1" "gA" shop)
  = (grant "u1" "gA" shop, Failure 400 "คุณมีเกมทั้งหมดในตะกร้าแล้ว") /\
  checkout no_faults 1000 "u9" ""
    (set_cart {[ "u9" := {[ "gA" := 1 ]} ]} shop)
  = (set_cart {[ "u9" := {[ "gA" := 1 ]} ]} shop, Failure 404 "ไม่พบผู้ใช้").
Proof.
  split; [|split].
  - apply (checkout_rejects_before_writing no_faults 1000 "u9" "" shop).
    reflexivity.
  - apply (checkout_rejects_before_writing no_faults 1000 "u1" ""
             (grant "u1" "gA" shop)).
    + vm_compute. discriminate.
    + intros g q Hq. unfold cart_quantity in Hq. simpl in Hq.
      rewrite lookup_insert_eq in Hq. simpl in Hq.
      apply lookup_singleton_Some in Hq as [<- _].
      apply elem_of_union_l, elem_of_singleton. reflexivity.
  - apply (checkout_rejects_before_writing no_faults 1000 "u9" ""
             (set_cart {[ "u9" := {[ "gA" := 1 ]} ]} shop)).
    + vm_compute. discriminate.
    + reflexivity.
Defined.








(** ** [POST /api/orders] and the discount check *)

(** X17.  [POST /api/orders] never moves money or ownership: whatever the
    request and the outcome, users, games, library and carts are unchanged,
    and of a discount only [usedCount] can change ([usedBy] and the active
    flag stay).  Unless the [add] itself fails, exactly one order is
    appended, also when the answer is 500 because the usage write failed. *)
Theorem post_orders_only_records :
  forall f r s,
    let out := post_orders f r s in
    users out.1 = users s /\ games out.1 = games s /\
    library out.1 = library s /\ cart out.1 = cart s /\
    (forall ref d, discounts out.1 !! ref = Some d ->
       exists d0, discounts s !! ref = Some d0 /\
         Discount.usedBy d = Discount.usedBy d0 /\
         Discount.isActive d = Discount.isActive d0 /\
         Discount.code d = Discount.code d0 /\
         (Discount.usedCount d = Discount.usedCount d0 \/
          Discount.usedCount d = Discount.usedCount d0 + 1)) /\
    (tx_aborts f = true -> out = (s, Failure 500 "Error saving order")) /\
    (tx_aborts f = false ->
     exists o, orders out.1 = orders s ++ [o] /\
       Order.status o = "completed" /\
       Order.gameId o = req_gameId r /\ Order.userId o = req_userId r).
Proof.
  intros f r s out. subst out. unfold post_orders.
  assert (Hsame : forall ref d, discounts s !! ref = Some d ->
            exists d0, discounts s !! ref = Some d0 /\
              Discount.usedBy d = Discount.usedBy d0 /\
              Discount.isActive d = Discount.isActive d0 /\
              Discount.code d = Discount.code d0 /\
              (Discount.usedCount d = Discount.usedCount d0 \/
               Discount.usedCount d = Discount.usedCount d0 + 1))
    by (intros ref d Hd; exists d; auto 10).
  destruct (tx_aborts f).
  { simpl. repeat split; auto. discriminate. }
  set (s1 := add_order _ s).
  assert (Hfin : forall out : store * response unit,
            users out.1 = users s -> games out.1 = games s ->
            library out.1 = library s -> cart out.1 = cart s ->
            orders out.1 = orders s1 ->
            (forall ref d, discounts out.1 !! ref = Some d ->
               exists d0, discounts s !! ref = Some d0 /\
                 Discount.usedBy d = Discount.usedBy d0 /\
                 Discount.isActive d = Discount.isActive d0 /\
                 Discount.code d = Discount.code d0 /\
                 (Discount.usedCount d = Discount.usedCount d0 \/
                  Discount.usedCount d = Discount.usedCount d0 + 1)) ->
            users out.1 = users s /\ games out.1 = games s /\
            library out.1 = library s /\ cart out.1 = cart s /\
            (forall ref d, discounts out.1 !! ref = Some d ->
               exists d0, discounts s !! ref = Some d0 /\
                 Discount.usedBy d = Discount.usedBy d0 /\
                 Discount.isActive d = Discount.isActive d0 /\
                 Discount.code d = Discount.code d0 /\
                 (Discount.usedCount d = Discount.usedCount d0 \/
                  Discount.usedCount d = Discount.usedCount d0 + 1)) /\
            (false = true -> out = (s, Failure 500 "Error saving order")) /\
            (false = false ->
             exists o, orders out.1 = orders s ++ [o] /\
               Order.status o = "completed" /\
               Order.gameId o = req_gameId r /\
               Order.userId o = req_userId r)).
  { intros out Hu Hg Hl Hc Ho Hd. repeat split; auto; [discriminate|].
    eexists. rewrite Ho. subst s1. simpl. split; [reflexivity|]. auto. }
  destruct (truthy (req_redeemCode r)); [|by apply Hfin].
  destruct (find_discount (req_redeemCode r) s1) as [[ref d]|] eqn:Ef;
    [|by apply Hfin].
  destruct (usage_update_fails f); [by apply Hfin|].
  destruct (bump_usedCount ref d s1) as [s2|] eqn:Eb; [|by apply Hfin].
  apply find_discount_lookup in Ef as [Hd _].
  apply update_discount_Some in Eb as (cur & Hcur & ->).
  assert (cur = d) as -> by congruence.
  apply Hfin; simpl; try reflexivity.
  intros ref' d' Hd'. destruct (decide (ref = ref')) as [<-|Hne].
  - rewrite lookup_insert_eq in Hd'. injection Hd' as <-.
    exists d. simpl. rewrite js_or_0. auto 10.
  - rewrite lookup_insert_ne in Hd' by done. by apply Hsame.
Qed.

Lemma post_orders_only_records_witness :
  let out := post_orders no_faults
               {| req_userId := "u1"; req_gameId := "gA";
                  req_gameName := "Alpha"; req_price := 60;
                  req_quantity := 1; req_redeemCode := "BIG5" |} shop in
  users out.1 = users shop /\ library out.1 = library shop /\
  length (orders out.1) = 1%nat.
Proof.
  intros out.
  destruct (post_orders_only_records no_faults
              {| req_userId := "u1"; req_gameId := "gA";
                 req_gameName := "Alpha"; req_price := 60;
                 req_quantity := 1; req_redeemCode := "BIG5" |} shop)
    as (Hu & _ & Hl & _ & _ & _ & Ho).
  destruct Ho as (o & Ho & _); [reflexivity|].
  split; [exact Hu|]. split; [exact Hl|].
  subst out. rewrite Ho. reflexivity.
Defined.

(** X18.  When [GET /api/discounts/check/:code] accepts a code, the
    document it returns is stored under the trimmed, upper-cased code, is
    active, has uses left and an expiry not before now, the supplied total
    meets a non-zero minimum spend, and the supplied user is not in
    [usedBy].  The checkout grants such a code its discount when the expiry
    is after now, and treats it as expired when the expiry is exactly
    now. *)
Theorem discount_check_sound :
  forall now code userId total s ref d,
    discount_check now code userId total s = Success (ref, d) ->
    discounts s !! ref = Some d /\
    Discount.code d = toUpperCase (trim code) /\
    Discount.isActive d = true /\
    Discount.usedCount d < Discount.usageLimit d /\
    (forall t, total = Some t ->
       (Discount.minSpend d == 0)%Q \/ (Discount.minSpend d <= t)%Q) /\
    (forall u, userId = Some u -> u ∉ Discount.usedBy d) /\
    exists e, Discount.expireAt d = Some e /\ now <= e /\
              applies now d = negb (e =? now).
Proof.
  intros now code userId total s ref d. unfold discount_check.
  destruct (find_discount _ s) as [[ref0 d0]|] eqn:Ef; [|discriminate].
  apply find_discount_lookup in Ef as [Hd Hc].
  destruct (Discount.isActive d0) eqn:Ea; [|discriminate]. simpl.
  destruct (Z.leb_spec (Discount.usageLimit d0) (Discount.usedCount d0));
    [discriminate|].
  destruct (Discount.expireAt d0) as [e|] eqn:Ee; [|discriminate].
  destruct (Z.ltb_spec e now); [discriminate|].
  destruct (negb _ && _) eqn:Em; [discriminate|].
  destruct (from_option _ false userId) eqn:Eu; [discriminate|].
  intros [= <- <-].
  split; [done|]. split; [done|]. split; [done|]. split; [done|].
  split; [|split].
  - intros t ->. simpl in Em. apply andb_false_iff in Em as [Em|Em].
    + left. apply negb_false_iff, Qeq_bool_iff in Em. exact Em.
    + right. by apply Qltb_ge.
  - intros u ->. simpl in Eu. intros Hin. apply includes_true in Hin.
    congruence.
  - exists e. split; [done|]. split; [done|].
    unfold applies. rewrite Ea, Ee. simpl.
    destruct (Z.eqb_spec e now), (Z.ltb_spec now e); reflexivity || lia.
Qed.

Lemma discount_check_sound_witness :
  discounts shop !! "d2" = Some save10 /\
  Discount.usedCount save10 < Discount.usageLimit save10 /\
  applies 1000 save10 = true.
Proof.
  destruct (discount_check_sound 1000 " save10" (Some "u1") (Some 200%Q)
              shop "d2" save10)
    as (H1 & _ & _ & H2 & _ & _ & e & He & _ & Ha); [reflexivity|].
  split; [exact H1|]. split; [exact H2|].
  injection He as <-. rewrite Ha. reflexivity.
Defined.

(** ** The promo validation *)

Lemma upper_ascii_idem (c : ascii) : upper_ascii (upper_ascii c) = upper_ascii c.
Proof.
  destruct c as [[] [] [] [] [] [] [] []]; vm_compute; reflexivity.
Qed.

Lemma toUpperCase_idem (s : string) :
  toUpperCase (toUpperCase s) = toUpperCase s.
Proof.
  induction s as [|c s IH]; simpl; [reflexivity|].
  rewrite upper_ascii_idem, IH. reflexivity.
Qed.

Lemma truthy_toUpperCase (s : string) :
  truthy (toUpperCase s) = truthy s.
Proof. destruct s; reflexivity. Qed.

(** The one document that carries a code is the one a lookup finds. *)
Lemma find_discount_only (id : string) (d : Discount.t) (s : store) :
  discounts s !! id = Some d ->
  (forall id' d', discounts s !! id' = Some d' ->
                  Discount.code d' = Discount.code d -> id' = id) ->
  find_discount (Discount.code d) s = Some (id, d).
Proof.
  intros Hd Honly.
  destruct (find_discount (Discount.code d) s) as [[id' d']|] eqn:E.
  - apply find_discount_lookup in E as [Hd' Hc].
    assert (id' = id) as -> by eauto. congruence.
  - exfalso. eapply find_discount_None in E; eauto.
Qed.

(** X19.  When [validate-promo] answers that a code is valid, a document
    with exactly the typed code exists, its type and value are the ones
    reported, it is not expired, a non-zero subtotal meets its minimum
    spend, it has uses left (when it has a usage limit) and the user has
    not used it.  The active flag is not among the conditions. *)
Theorem validate_promo_sound :
  forall now userId promoCode subtotal s ty v,
    validate_promo now userId promoCode subtotal s = PromoValid ty v ->
    promoCode <> "" /\
    exists ref d,
      find_discount promoCode s = Some (ref, d) /\
      Discount.code d = promoCode /\
      ty = Discount.type d /\ v = Discount.value d /\
      (forall e, Discount.expireAt d = Some e -> now <= e) /\
      ((subtotal == 0)%Q \/ (Discount.minSpend d <= subtotal)%Q) /\
      (Discount.usageLimit d = 0 \/
       Discount.usedCount d < Discount.usageLimit d) /\
      (userId ∉ Discount.usedBy d).
Proof.
  intros now userId promoCode subtotal s ty v. unfold validate_promo.
  destruct promoCode as [|c p]; [discriminate|]. simpl.
  destruct (find_discount (String c p) s) as [[ref d]|] eqn:Ef;
    [|discriminate].
  destruct (from_option _ false (Discount.expireAt d)) eqn:Ee;
    [discriminate|].
  destruct (negb (Qeq_bool subtotal 0) && _) eqn:Em; [discriminate|].
  destruct (negb (Discount.usageLimit d =? 0) && _) eqn:El; [discriminate|].
  destruct (includes (Discount.usedBy d) userId) eqn:Eu; [discriminate|].
  intros [= <- <-]. split; [discriminate|]. exists ref, d.
  split; [reflexivity|].
  split; [by apply find_discount_lookup in Ef as [_ ?]|].
  split; [reflexivity|]. split; [reflexivity|].
  split; [|split; [|split]].
  - intros e He. rewrite He in Ee. simpl in Ee. by apply Z.ltb_ge.
  - apply andb_false_iff in Em as [Em|Em].
    + left. by apply negb_false_iff, Qeq_bool_iff in Em.
    + right. apply Qltb_ge in Em. rewrite js_orQ_0 in Em. exact Em.
  - apply andb_false_iff in El as [El|El].
    + left. by apply negb_false_iff, Z.eqb_eq in El.
    + right. apply Z.leb_gt in El. rewrite js_or_0 in El. exact El.
  - intros Hin. apply includes_true in Hin. congruence.
Qed.

Lemma validate_promo_sound_witness :
  exists ref d,
    find_discount "SAVE10" shop = Some (ref, d) /\
    Discount.type d = "percent" /\ ("u1" ∉ Discount.usedBy d).
Proof.
  destruct (validate_promo_sound 1000 "u1" "SAVE10" 200 shop "percent" 10)
    as (_ & ref & d & Hf & _ & Ht & _ & _ & _ & _ & Hu); [reflexivity|].
  exists ref, d. auto.
Defined.

(** X20.  [validate-promo] looks the code up as typed while the checkout
    upper-cases it first.  With codes stored in upper case, as
    [POST /api/discounts] writes them, a code typed with a lower-case
    letter is answered "โค้ดไม่ถูกต้อง" by the validation although the
    checkout finds it. *)
Theorem validate_promo_is_case_sensitive :
  forall now userId promoCode subtotal s ref d,
    codes_upper s ->
    lookup_promo promoCode s = Some (ref, d) ->
    toUpperCase promoCode <> promoCode ->
    validate_promo now userId promoCode subtotal s
    = PromoInvalid "โค้ดไม่ถูกต้อง".
Proof.
  intros now userId promoCode subtotal s ref d Hup Hl Hcase.
  apply lookup_promo_Some in Hl as (Ht & _ & _).
  unfold validate_promo. rewrite Ht. simpl.
  destruct (find_discount promoCode s) as [[ref' d']|] eqn:Ef;
    [|reflexivity].
  apply find_discount_lookup in Ef as [Hd' Hc].
  apply Hup in Hd'. rewrite Hc in Hd'. contradiction.
Qed.

Lemma shop_codes_upper : codes_upper shop.
Proof.
  intros id d Hd. unfold shop in Hd. simpl in Hd.
  repeat (apply lookup_insert_Some in Hd as [[_ <-]|[_ Hd]];
          [reflexivity|]).
  apply lookup_singleton_Some in Hd as [_ <-]. reflexivity.
Qed.

Lemma validate_promo_is_case_sensitive_witness :
  validate_promo 1000 "u1" "save10" 200 shop
  = PromoInvalid "โค้ดไม่ถูกต้อง" /\
  lookup_promo "save10" shop = Some ("d2", save10).
Proof.
  split; [|reflexivity].
  apply (validate_promo_is_case_sensitive 1000 "u1" "save10" 200 shop
           "d2" save10);
    [exact shop_codes_upper | reflexivity | discriminate].
Defined.

Lemma validate_promo_valid_truthy (now : Z) (userId promoCode : string)
    (subtotal : Q) (s : store) (ty : string) (v : Q) :
  validate_promo now userId promoCode subtotal s = PromoValid ty v ->
  truthy promoCode = true.
Proof.
  unfold validate_promo. destruct (truthy promoCode); [done|discriminate].
Qed.

(** X21.  A code that has been switched off can still be validated: when
    [validate-promo] answers valid for a code whose document is inactive,
    every successful checkout with that code at that instant grants a
    discount of 0 and charges the full total. *)
Theorem validated_inactive_code_grants_nothing :
  forall now userId promoCode subtotal s ty v ref d,
    validate_promo now userId promoCode subtotal s = PromoValid ty v ->
    toUpperCase promoCode = promoCode ->
    find_discount promoCode s = Some (ref, d) ->
    Discount.isActive d = false ->
    forall f s' r,
      checkout f now userId promoCode s = (s', Success r) ->
      discount r = 0%Q /\ (finalTotal r == Qmax (total r) 0)%Q.
Proof.
  intros now userId promoCode subtotal s ty v ref d Hv Hup Hf Ha f s' r H.
  apply validate_promo_valid_truthy in Hv.
  apply checkout_Success in H as (user & s1 & _ & _ & _ & _ & ->).
  simpl. unfold checkout_finalTotal, lookup_promo.
  rewrite Hv, Hup, Hf. simpl. unfold promo_discount, applies.
  rewrite Ha. simpl. split; [reflexivity|].
  apply Q.max_compat; [|reflexivity]. unfold Qminus. simpl.
  apply Qplus_0_r.
Qed.

Lemma validated_inactive_code_grants_nothing_witness :
  validate_promo 1000 "u2" "PAUSE20" 200 shop2 = PromoValid "percent" 20 /\
  exists s' r,
    checkout no_faults 1000 "u2" "PAUSE20" shop2 = (s', Success r) /\
    discount r = 0%Q.
Proof.
  split; [reflexivity|].
  destruct (checkout no_faults 1000 "u2" "PAUSE20" shop2)
    as [s' [r|st msg]] eqn:E; [|vm_compute in E; discriminate].
  exists s', r. split; [reflexivity|].
  destruct (validated_inactive_code_grants_nothing 1000 "u2" "PAUSE20" 200
              shop2 "percent" 20 "d4" pause20) with no_faults s' r
    as [H _]; try reflexivity; [exact E | exact H].
Defined.

(** ** The discount administration *)

Lemma sweep_doc_fields (now : Z) (d : Discount.t) :
  sweep_doc now d
  = Discount.set_usage (Discount.usedBy d) (Discount.usedCount d)
      (Discount.isActive d
       && negb (from_option (λ e, e <? now) false (Discount.expireAt d)))
      d.
Proof.
  unfold sweep_doc, expired_active.
  destruct d as [c t v m x e a ub uc ul]. simpl.
  destruct (from_option _ false e), a; reflexivity.
Qed.

Lemma sweep_doc_idem (now : Z) (d : Discount.t) :
  sweep_doc now (sweep_doc now d) = sweep_doc now d.
Proof.
  rewrite !sweep_doc_fields. destruct d as [c t v m x e a ub uc ul].
  simpl. destruct a, (from_option _ false e); reflexivity.
Qed.

(** X22.  Listing the discounts ([GET /api/discounts]) switches off exactly
    the documents that are active and past their expiry and changes nothing
    else: afterwards no document is both active and expired, every other
    field of every document and every other collection is as before, no
    document appears or disappears, and listing again at the same instant
    changes nothing more. *)
Theorem discount_sweep_switches_off_expired :
  forall now s,
    let s' := discount_sweep now s in
    (forall id, discounts s' !! id = sweep_doc now <$> discounts s !! id) /\
    (forall id d', discounts s' !! id = Some d' ->
       (forall e, Discount.isActive d' = true ->
                  Discount.expireAt d' = Some e -> now <= e) /\
       exists d, discounts s !! id = Some d /\
         d' = Discount.set_usage (Discount.usedBy d) (Discount.usedCount d)
                (Discount.isActive d
                 && negb (from_option (λ e, e <? now) false
                            (Discount.expireAt d))) d) /\
    users s' = users s /\ games s' = games s /\ orders s' = orders s /\
    library s' = library s /\ cart s' = cart s /\
    discount_sweep now s' = s'.
Proof.
  intros now s s'. subst s'. unfold discount_sweep. simpl.
  split; [intros id; apply lookup_fmap|]. split.
  - intros id d'. rewrite lookup_fmap.
    destruct (discounts s !! id) as [d|]; [|discriminate]. simpl.
    intros [= <-]. split.
    + rewrite sweep_doc_fields. simpl. intros e Ha He.
      apply andb_true_iff in Ha as [_ Ha]. rewrite He in Ha. simpl in Ha.
      apply negb_true_iff in Ha. by apply Z.ltb_ge.
    + exists d. split; [reflexivity | apply sweep_doc_fields].
  - repeat split. unfold set_discounts. simpl. f_equal.
    apply map_eq. intros id. rewrite !lookup_fmap.
    destruct (discounts s !! id); simpl; [|reflexivity].
    by rewrite sweep_doc_idem.
Qed.

Lemma discount_sweep_switches_off_expired_witness :
  exists d',
    discounts (discount_sweep 3000 shop) !! "d2" = Some d' /\
    Discount.isActive save10 = true /\ Discount.isActive d' = false /\
    Discount.usedCount d' = Discount.usedCount save10.
Proof.
  destruct (discount_sweep_switches_off_expired 3000 shop) as (_ & H & _).
  destruct (H "d2" (sweep_doc 3000 save10)) as (_ & d & Hd & Heq);
    [reflexivity|].
  exists (sweep_doc 3000 save10). split; [reflexivity|].
  split; [reflexivity|]. injection Hd as <-. rewrite Heq. split; reflexivity.
Defined.

(** X23.  The status shown by the listing and the check endpoint agree:
    for the document that a code resolves to, when it carries an expiry,
    the listing shows "ใช้งานได้" exactly when
    [GET /api/discounts/check/:code] accepts the code for a request that
    names no user and no total. *)
Theorem listing_status_matches_check :
  forall now code s ref d e,
    find_discount (toUpperCase (trim code)) s = Some (ref, d) ->
    Discount.expireAt d = Some e ->
    (discount_status now d = "ใช้งานได้" <->
     discount_check now code None None s = Success (ref, d)).
Proof.
  intros now code s ref d e Hf He.
  unfold discount_check, discount_status. rewrite Hf, sweep_doc_fields.
  simpl. rewrite He. simpl.
  destruct (Discount.isActive d); simpl;
    [|split; intros H; discriminate H].
  rewrite andb_false_r.
  destruct (Discount.usageLimit d <=? Discount.usedCount d), (e <? now);
    simpl; split; intros H; try discriminate H; reflexivity.
Qed.

Lemma listing_status_matches_check_witness :
  discount_status 1000 save10 = "ใช้งานได้" /\
  discount_status 1000 fixed10 = "ถูกปิดใช้งาน".
Proof.
  split; [|reflexivity].
  apply (listing_status_matches_check 1000 "save10 " shop "d2" save10 2000);
    reflexivity.
Defined.

Lemma discount_create_Success (newId : string) (r : discount_request)
    (s s' : store) :
  discount_create newId r s = (s', Success ()) ->
  exists expire,
    new_expireAt r = Some expire /\ truthy (new_code r) = true /\
    find_discount (toUpperCase (new_code r)) s = None /\
    s' = set_discounts (<[newId := newDiscount r expire]> (discounts s)) s.
Proof.
  unfold discount_create.
  destruct (new_expireAt r) as [expire|]; [|discriminate].
  destruct (truthy (new_code r)); simpl; [|discriminate].
  destruct (negb (truthy (new_type r)) || Qeq_bool (new_value r) 0);
    [discriminate|].
  destruct (find_discount _ s) as [?|] eqn:E; [discriminate|].
  intros [= <-]. eauto.
Qed.

(** X24.  [POST /api/discounts] keeps the codes distinct and in upper case:
    if no two stored documents share a code, none do afterwards, and if all
    stored codes are in upper case, all are afterwards.  A request whose
    code, in any letter case, is already stored writes nothing and is not
    answered with success. *)
Theorem discount_create_keeps_codes_unique :
  forall newId r s,
    let out := discount_create newId r s in
    (codes_unique s -> codes_unique out.1) /\
    (codes_upper s -> codes_upper out.1) /\
    (forall ref d,
        find_discount (toUpperCase (new_code r)) s = Some (ref, d) ->
        out.1 = s /\ out.2 <> Success ()).
Proof.
  intros newId r s out. subst out.
  destruct (discount_create newId r s) as [s' [[]|st msg]] eqn:E.
  - apply discount_create_Success in E as (expire & _ & _ & Hnone & ->).
    simpl. split; [|split].
    + intros Hu id1 id2 d1 d2 H1 H2 Hc. simpl in *.
      pose proof (proj1 (find_discount_None _ s) Hnone) as Hfresh.
      destruct (decide (newId = id1)) as [<-|N1],
               (decide (newId = id2)) as [<-|N2]; [done|..].
      * rewrite lookup_insert_eq in H1. injection H1 as <-.
        rewrite lookup_insert_ne in H2 by done.
        destruct (Hfresh _ _ H2). by rewrite <- Hc.
      * rewrite lookup_insert_eq in H2. injection H2 as <-.
        rewrite lookup_insert_ne in H1 by done.
        destruct (Hfresh _ _ H1). by rewrite Hc.
      * rewrite lookup_insert_ne in H1, H2 by done. eauto.
    + intros Hu id d Hd. simpl in Hd.
      destruct (decide (newId = id)) as [<-|N].
      * rewrite lookup_insert_eq in Hd. injection Hd as <-. simpl.
        apply toUpperCase_idem.
      * rewrite lookup_insert_ne in Hd by done. eauto.
    + intros ref d Hf. congruence.
  - assert (s' = s) as ->.
    { unfold discount_create in E.
      destruct (new_expireAt r); [|congruence].
      destruct (_ || _); [congruence|].
      destruct (find_discount _ s); congruence. }
    simpl. split; [done|]. split; [done|]. intros ref d _.
    split; [reflexivity | discriminate].
Qed.

Lemma discount_create_keeps_codes_unique_witness :
  let r := {| new_code := "Save10"; new_type := "fixed"; new_value := 3;
              new_minSpend := 0; new_maxDiscount := 0;
              new_expireAt := Some 5000; new_usageLimit := 0 |} in
  (discount_create "d9" r shop).1 = shop /\
  codes_upper (discount_create "d9" r shop).1.
Proof.
  intros r.
  destruct (discount_create_keeps_codes_unique "d9" r shop)
    as (_ & Hup & Hdup).
  split.
  - apply (Hdup "d2" save10). reflexivity.
  - apply Hup. exact shop_codes_upper.
Defined.

(** X25.  A code created by [POST /api/discounts] is found by the checkout
    under any spelling that differs only in letter case.  The new document
    is stored under the generated identity in upper case, active, unused,
    with a usage limit that is never 0, and the checkout grants it exactly
    until its expiry; the other documents are untouched. *)
Theorem discount_create_then_lookup :
  forall newId r s s',
    discount_create newId r s = (s', Success ()) ->
    exists expire,
      let nd := newDiscount r expire in
      new_expireAt r = Some expire /\
      discounts s' !! newId = Some nd /\
      (forall p, toUpperCase p = toUpperCase (new_code r) ->
                 lookup_promo p s' = Some (newId, nd)) /\
      (forall now, applies now nd = (now <? expire)) /\
      Discount.usedCount nd = 0 /\ Discount.usedBy nd = [] /\
      Discount.usageLimit nd <> 0 /\
      (forall id, id <> newId -> discounts s' !! id = discounts s !! id).
Proof.
  intros newId r s s' H.
  apply discount_create_Success in H as (expire & He & Ht & Hnone & ->).
  exists expire. simpl. split; [exact He|].
  split; [apply lookup_insert_eq|]. split; [|split; [|split; [|split]]].
  - intros p Hp. unfold lookup_promo.
    assert (truthy p = true) as ->.
    { rewrite <- truthy_toUpperCase, Hp, truthy_toUpperCase. exact Ht. }
    rewrite Hp.
    apply (find_discount_only newId (newDiscount r expire)).
    + apply lookup_insert_eq.
    + intros id' d' Hd' Hc. simpl in Hd', Hc.
      destruct (decide (newId = id')) as [<-|N]; [done|].
      rewrite lookup_insert_ne in Hd' by done.
      pose proof (proj1 (find_discount_None _ s) Hnone _ _ Hd') as Hne.
      contradiction.
  - intros now. reflexivity.
  - reflexivity.
  - reflexivity.
  - split.
    + unfold js_or. destruct (Z.eqb_spec (new_usageLimit r) 0); [lia|done].
    + intros id Hid. by apply lookup_insert_ne.
Qed.

Lemma discount_create_then_lookup_witness :
  let r := {| new_code := "Spring5"; new_type := "fixed"; new_value := 5;
              new_minSpend := 0; new_maxDiscount := 0;
              new_expireAt := Some 5000; new_usageLimit := 0 |} in
  exists s',
    discount_create "d9" r shop = (s', Success ()) /\
    lookup_promo "spring5" s' = Some ("d9", newDiscount r 5000) /\
    Discount.usageLimit (newDiscount r 5000) = 1.
Proof.
  intros r.
  destruct (discount_create "d9" r shop) as [s' [[]|st msg]] eqn:E;
    [|vm_compute in E; discriminate].
  destruct (discount_create_then_lookup "d9" r shop s' E)
    as (expire & He & _ & Hl & _).
  injection He as <-.
  exists s'. split; [reflexivity|]. split; [|reflexivity].
  apply Hl. reflexivity.
Defined.

(** X26.  [PUT /api/discounts/:id/toggle] refuses a body without a boolean
    (400) and an unknown identity (500) without writing; otherwise it sets
    the active flag of that one document and nothing else.  With distinct
    codes the checkout then finds the same document under the same code,
    and its guard follows the flag alone: switched off, the code grants
    nothing; switched on, it is granted until its expiry, whatever its
    usage count. *)
Theorem discount_toggle_effect :
  forall id b s,
    discount_toggle id None s = (s, Failure 400 "Missing isActive boolean") /\
    (discounts s !! id = None ->
     discount_toggle id (Some b) s
     = (s, Failure 500 "Server error while toggling discount")) /\
    (forall d,
        discounts s !! id = Some d ->
        let d' := Discount.set_usage (Discount.usedBy d)
                    (Discount.usedCount d) b d in
        let s' := set_discounts (<[id := d']> (discounts s)) s in
        discount_toggle id (Some b) s = (s', Success ()) /\
        (forall now, applies now d'
                     = b && from_option (λ e, now <? e) true
                              (Discount.expireAt d)) /\
        (forall p, codes_unique s ->
                   lookup_promo p s = Some (id, d) ->
                   lookup_promo p s' = Some (id, d'))).
Proof.
  intros id b s. split; [reflexivity|]. split.
  - intros Hn. unfold discount_toggle, update_discount. rewrite Hn.
    reflexivity.
  - intros d Hd d' s'. split; [|split].
    + unfold discount_toggle, update_discount. rewrite Hd. reflexivity.
    + intros now. unfold applies. subst d'. simpl.
      destruct (Discount.expireAt d); reflexivity.
    + intros p Hu Hl. unfold lookup_promo in *.
      destruct (truthy p); [|discriminate].
      apply find_discount_lookup in Hl as [_ Hc].
      rewrite <- Hc.
      change (Discount.code d) with (Discount.code d').
      apply (find_discount_only id d' s').
      * apply lookup_insert_eq.
      * intros id' d0 Hd0 Hc0. subst s'. simpl in Hd0.
        destruct (decide (id = id')) as [|Hne]; [done|].
        rewrite lookup_insert_ne in Hd0 by done.
        exact (Hu id' id d0 d Hd0 Hd Hc0).
Qed.

Lemma shop_codes_unique : codes_unique shop.
Proof.
  assert (H : forall id d, discounts shop !! id = Some d ->
            (id = "d1" /\ d = fixed10) \/ (id = "d2" /\ d = save10) \/
            (id = "d3" /\ d = big5)).
  { intros id d Hd. unfold shop in Hd. simpl in Hd.
    apply lookup_insert_Some in Hd as [[<- <-]|[_ Hd]]; [auto|].
    apply lookup_insert_Some in Hd as [[<- <-]|[_ Hd]]; [auto|].
    apply lookup_singleton_Some in Hd as [<- <-]. auto. }
  intros id1 id2 d1 d2 H1 H2 Hc.
  apply H in H1 as [[-> ->]|[[-> ->]|[-> ->]]];
    apply H in H2 as [[-> ->]|[[-> ->]|[-> ->]]];
    try reflexivity; discriminate Hc.
Qed.

Lemma discount_toggle_effect_witness :
  exists s',
    discount_toggle "d1" (Some true) shop = (s', Success ()) /\
    (Discount.isActive <$> discounts s' !! "d1") = Some true /\
    (exists d', lookup_promo "fixed10" s' = Some ("d1", d') /\
                applies 1000 d' = true /\
                Discount.usageLimit d' <= Discount.usedCount d').
Proof.
  destruct (discount_toggle_effect "d1" true shop) as (_ & _ & H).
  destruct (H fixed10) as (E & Ha & Hl); [reflexivity|].
  eexists. split; [exact E|]. split; [reflexivity|].
  eexists. split; [apply Hl; [exact shop_codes_unique | reflexivity]|].
  split; [rewrite Ha; reflexivity | simpl; lia].
Defined.

(** ** The top-up *)

Lemma topup_tx_Some (userId : string) (amount : Q) (method : string)
    (l l' : ledger) :
  topup_tx userId amount method l = Some l' ->
  exists u,
    users (db l) !! userId = Some u /\
    db l' = set_users
              (<[userId := {| User.wallet := (User.wallet u + amount)%Q |}]>
                 (users (db l))) (db l) /\
    topup_history l' = topup_history l ++
      [{| Topup.userId := userId; Topup.amount := amount;
          Topup.method := if truthy method then method else "wallet" |}].
Proof.
  unfold topup_tx. destruct (update_user _ _ (db l)) as [s'|] eqn:E;
    [|discriminate].
  simpl. intros [= <-]. apply update_user_Some in E as (u & Hu & ->).
  simpl. eauto.
Qed.

(** X27.  [POST /api/users/topup] credits exactly the amount: for a
    positive amount and an existing user it answers with the new wallet,
    the old one plus the amount, appends one history row (method "wallet"
    when none is given) and touches no other user or collection.  An amount
    that is zero or negative is refused (400), and a user without a
    document gets 500; in both cases nothing is written, no history row
    either. *)
Theorem topup_credits_amount :
  forall f userId amount method l,
    ((amount <= 0)%Q ->
     topup f userId amount method l = (l, Failure 400 "Invalid amount")) /\
    ((0 < amount)%Q -> users (db l) !! userId = None ->
     topup f userId amount method l = (l, Failure 500 "Server Error")) /\
    (forall u,
        (0 < amount)%Q -> users (db l) !! userId = Some u ->
        tx_aborts f = false ->
        exists l',
          topup f userId amount method l
          = (l', Success (User.wallet u + amount)%Q) /\
          wallet_of userId (db l') = Some (User.wallet u + amount)%Q /\
          (forall v, v <> userId ->
                     users (db l') !! v = users (db l) !! v) /\
          topup_history l' = topup_history l ++
            [{| Topup.userId := userId; Topup.amount := amount;
                Topup.method := if truthy method then method
                                else "wallet" |}] /\
          games (db l') = games (db l) /\ orders (db l') = orders (db l) /\
          library (db l') = library (db l) /\ cart (db l') = cart (db l) /\
          discounts (db l') = discounts (db l)).
Proof.
  intros f userId amount method l.
  assert (Hpos : (0 < amount)%Q -> Qle_bool amount 0 = false).
  { intros H. apply not_true_iff_false. rewrite Qle_bool_iff. lra. }
  split; [|split].
  - intros H. unfold topup. apply Qle_bool_iff in H. rewrite H. reflexivity.
  - intros H Hu. unfold topup. rewrite (Hpos H).
    unfold topup_tx, update_user. rewrite Hu.
    destruct (tx_aborts f); reflexivity.
  - intros u H Hu Hf. unfold topup. rewrite (Hpos H), Hf.
    unfold topup_tx, update_user. rewrite Hu. simpl.
    rewrite lookup_insert_eq. eexists. split; [reflexivity|]. simpl.
    split; [unfold wallet_of; simpl; rewrite lookup_insert_eq; reflexivity|].
    split; [intros v Hv; by apply lookup_insert_ne|]. auto 10.
Qed.

Lemma topup_credits_amount_witness :
  topup no_faults "u1" 0 "card" bank = (bank, Failure 400 "Invalid amount") /\
  topup no_faults "u9" 5 "card" bank = (bank, Failure 500 "Server Error") /\
  exists l',
    topup no_faults "u1" 25 "" bank = (l', Success (100 + 25)%Q) /\
    wallet_of "u1" (db l') = Some (100 + 25)%Q /\
    length (topup_history l') = 1%nat.
Proof.
  destruct (topup_credits_amount no_faults "u1" 0 "card" bank) as (H1 & _).
  destruct (topup_credits_amount no_faults "u9" 5 "card" bank)
    as (_ & H2 & _).
  destruct (topup_credits_amount no_faults "u1" 25 "" bank) as (_ & _ & H3).
  split; [apply H1; discriminate|].
  split; [apply H2; reflexivity|].
  destruct (H3 {| User.wallet := 100 |}) as (l' & E & Hw & _ & Hh & _);
    [reflexivity..|].
  exists l'. split; [exact E|]. split; [exact Hw|]. rewrite Hh. reflexivity.
Defined.

Lemma buy_tx_progress (userId gid : string) (user : User.t) (game : Game.t)
    (s : store) :
  is_Some (users s !! userId) -> is_Some (games s !! gid) ->
  is_Some (buy_tx userId gid user game s).
Proof.
  intros [u Hu] [g Hg]. unfold buy_tx, update_user. rewrite Hu. simpl.
  unfold update_game. simpl. rewrite Hg. simpl. eauto.
Qed.

(** X28.  The top-up adds to the wallet that is stored when it commits,
    the direct buy writes the wallet it computed from its earlier read.  So
    a top-up that commits after a buy is kept (the wallet ends at the old
    balance minus the price plus the amount), while a top-up that commits
    between the read and the commit of a buy is overwritten: the wallet
    ends at the old balance minus the price and the amount is gone,
    although its history row is recorded. *)
Theorem topup_racing_a_buy :
  forall userId gid amount method l user game,
    buy_read userId gid (db l) = Success (user, game) ->
    (exists s1 l2,
        buy_tx userId gid user game (db l) = Some s1 /\
        topup_tx userId amount method
          {| db := s1; topup_history := topup_history l |} = Some l2 /\
        wallet_of userId (db l2)
        = Some (User.wallet user - Game.price game + amount)%Q) /\
    (exists l1 s2,
        topup_tx userId amount method l = Some l1 /\
        buy_tx userId gid user game (db l1) = Some s2 /\
        wallet_of userId (db l1) = Some (User.wallet user + amount)%Q /\
        wallet_of userId s2 = Some (User.wallet user - Game.price game)%Q /\
        Topup.amount <$> topup_history l1
        = (Topup.amount <$> topup_history l) ++ [amount]).
Proof.
  intros userId gid amount method l user game Hr.
  apply buy_read_Success in Hr as (_ & Hu & Hg & _). split.
  - destruct (buy_tx_progress userId gid user game (db l)) as [s1 Hs1];
      [eauto..|].
    pose proof Hs1 as Hb. apply buy_tx_Some in Hb as (Hus & _).
    exists s1. unfold topup_tx, update_user. simpl.
    rewrite Hus, lookup_insert_eq. simpl. eexists. split; [exact Hs1|].
    split; [reflexivity|]. unfold wallet_of. simpl.
    rewrite lookup_insert_eq. reflexivity.
  - unfold topup_tx, update_user. rewrite Hu. simpl.
    eexists. 
    destruct (buy_tx_progress userId gid user game
                (set_users
                   (<[userId := {| User.wallet :=
                                     (User.wallet user + amount)%Q |}]>
                      (users (db l))) (db l))) as [s2 Hs2].
    { simpl. rewrite lookup_insert_eq. eauto. }
    { simpl. eauto. }
    exists s2. split; [reflexivity|]. simpl. split; [exact Hs2|].
    split; [unfold wallet_of; simpl; rewrite lookup_insert_eq; reflexivity|].
    split.
    + apply buy_tx_Some in Hs2 as (Hus & _). unfold wallet_of.
      rewrite Hus, lookup_insert_eq. reflexivity.
    + rewrite fmap_app. reflexivity.
Qed.

Lemma topup_racing_a_buy_witness :
  exists l1 s2,
    topup_tx "u1" 25 "card" bank = Some l1 /\
    buy_tx "u1" "gA" {| User.wallet := 100 |} game_a (db l1) = Some s2 /\
    wallet_of "u1" (db l1) = Some (100 + 25)%Q /\
    wallet_of "u1" s2 = Some (100 - 60)%Q.
Proof.
  destruct (topup_racing_a_buy "u1" "gA" 25 "card" bank
              {| User.wallet := 100 |} game_a)
    as (_ & l1 & s2 & H1 & H2 & H3 & H4 & _); [reflexivity|].
  exists l1, s2. auto.
Defined.

(** X29.  Topping up and then buying compose: a user whose wallet is below
    the price is refused, and after a top-up that covers the difference
    the same direct buy succeeds and leaves the old balance plus the amount
    minus the price. *)
Theorem topup_then_buy :
  forall f userId gid amount method l user game,
    truthy gid = true ->
    users (db l) !! userId = Some user ->
    games (db l) !! gid = Some game ->
    (User.wallet user < Game.price game)%Q ->
    (0 < amount)%Q ->
    (Game.price game <= User.wallet user + amount)%Q ->
    tx_aborts f = false -> respond_fails f = false ->
    (buy f userId gid (db l)).2 = Failure 400 "เงินในกระเป๋าไม่พอ" /\
    exists l1 s2 r,
      (topup f userId amount method l).1 = l1 /\
      buy f userId gid (db l1) = (s2, Success r) /\
      buy_newWallet r = (User.wallet user + amount - Game.price game)%Q /\
      wallet_of userId s2
      = Some (User.wallet user + amount - Game.price game)%Q.
Proof.
  intros f userId gid amount method l user game Hid Hu Hg Hlt Ha Hle Hf Hre.
  split.
  - unfold buy, buy_read. rewrite Hid, Hu, Hg. simpl.
    apply Qltb_lt in Hlt. rewrite Hlt. reflexivity.
  - assert (Hpos : Qle_bool amount 0 = false).
    { apply not_true_iff_false. rewrite Qle_bool_iff. lra. }
    unfold topup. rewrite Hpos, Hf. unfold topup_tx, update_user.
    rewrite Hu. simpl. rewrite lookup_insert_eq. simpl.
    eexists.
    destruct (buy_progress f userId gid
                (set_users
                   (<[userId := {| User.wallet :=
                                     (User.wallet user + amount)%Q |}]>
                      (users (db l))) (db l))
                {| User.wallet := (User.wallet user + amount)%Q |} game)
      as (s2 & r & E & Htx & Hnw & _); auto.
    { simpl. apply lookup_insert_eq. }
    exists s2, r. split; [reflexivity|]. simpl. split; [exact E|].
    split; [exact Hnw|].
    apply buy_tx_Some in Htx as (Hus & _). unfold wallet_of.
    rewrite Hus, lookup_insert_eq. reflexivity.
Qed.

Lemma topup_then_buy_witness :
  (buy no_faults "u1" "gC" (db bank)).2 = Failure 400 "เงินในกระเป๋าไม่พอ" /\
  exists s2 r,
    buy no_faults "u1" "gC" (db (topup no_faults "u1" 150 "" bank).1)
    = (s2, Success r) /\
    wallet_of "u1" s2 = Some (100 + 150 - 200)%Q.
Proof.
  destruct (topup_then_buy no_faults "u1" "gC" 150 "" bank
              {| User.wallet := 100 |} game_c)
    as (H1 & l1 & s2 & r & <- & E & _ & Hw);
    [reflexivity | reflexivity | reflexivity | reflexivity | reflexivity
    | discriminate | reflexivity | reflexivity |].
  split; [exact H1|]. exists s2, r. auto.
Defined.
